(** * Linear evaluation driver ([linear.py]): a shallow embedding

    The script is glue around external collaborators (the encoder, the
    data provider, the classifier head, the low-shot routine, the
    checkpoint reader).  The collaborators are an interface
    ([External]); the script's own control flow, its string handling, its
    dictionary manipulation and its effects (log file, calls made to the
    collaborators) are modelled explicitly: a function of the script is a
    computation in a state and exception monad over the [World], which
    holds the log files and the trace of the calls made.

    Scope.  What the collaborators do is taken from what the script
    itself shows of them.  A call whose exception the statements speak of
    returns a [result]; the other calls ([os.makedirs], the file handler,
    [GradScaler()], [model.cuda()], the classifier and the low-shot
    routine, the iteration of a loader) are taken to return.  The log
    file changes in the model only through the script's own
    [logger.info]: what a library may log to the root logger on its own
    is outside the model, and the statements on a finished run are made on
    the calls of the script and on the end of the log file.  An array is
    the list of its rows, each with the precision of the tensor it came
    from; [np.array] at line 48 gives one precision to the whole array,
    which is the rows' own when they agree, as they do in every statement
    that speaks of the precision of a result. *)

From Stdlib Require Import ZArith Ascii String List Bool Lia.
From stdpp Require Import base option list strings gmap.

Open Scope string_scope.
Open Scope list_scope.

(** ** Python strings *)

Module PyStr.

(** [s.startswith(p)] *)
Fixpoint startswith (p s : string) : bool :=
  match p with
  | EmptyString => true
  | String a p' =>
      match s with
      | EmptyString => false
      | String b s' => if Ascii.eqb a b then startswith p' s' else false
      end
  end.

(** [p in s] on strings: [p] occurs somewhere in [s]. *)
Fixpoint contains (p s : string) : bool :=
  startswith p s ||
  match s with
  | EmptyString => false
  | String _ s' => contains p s'
  end.

(** Scan of [s.replace(old, new)] for a non-empty [old]: occurrences are
    found left to right and do not overlap; [skip] counts the characters
    of the current occurrence still to be dropped. *)
Fixpoint replace_go (old new : string) (skip : nat) (s : string) : string :=
  match s with
  | EmptyString => EmptyString
  | String c s' =>
      match skip with
      | S k => replace_go old new k s'
      | O =>
          if startswith old s
          then new +:+ replace_go old new (String.length old - 1) s'
          else String c (replace_go old new 0 s')
      end
  end.

(** With an empty [old], Python puts [new] before every character and at
    the end. *)
Fixpoint intersperse (new s : string) : string :=
  match s with
  | EmptyString => new
  | String c s' => new +:+ String c (intersperse new s')
  end.

(** [s.replace(old, new)] *)
Definition replace (old new s : string) : string :=
  match old with
  | EmptyString => intersperse new s
  | String _ _ => replace_go old new 0 s
  end.

(** [s.endswith(p)]: [p] is one of the tails of [s]. *)
Fixpoint endswith (p s : string) : bool :=
  String.eqb p s ||
  match s with
  | EmptyString => false
  | String _ s' => endswith p s'
  end.

(** [template.format(a1, ..., an)] for a template whose only fields are [{}]:
    the fields take the arguments in order; a field without an argument
    raises [IndexError] ([None] here), arguments left over are ignored. *)
Fixpoint format (template : string) (args : list string) : option string :=
  match template with
  | String "{" (String "}" rest) =>
      match args with
      | [] => None
      | a :: args' => option_map (String.append a) (format rest args')
      end
  | String c rest => option_map (String c) (format rest args)
  | EmptyString => Some EmptyString
  end.

(** [posixpath.join(a, b)] *)
Definition path_join (a b : string) : string :=
  if startswith "/" b then b
  else if String.eqb a "" || endswith "/" a then a +:+ b
  else a +:+ "/" +:+ b.

(** [str(n)] for a Python [int]. *)
Fixpoint digits (fuel : nat) (n : N) (acc : string) : string :=
  match fuel with
  | O => acc
  | S fuel' =>
      let d := ascii_of_N (48 + N.modulo n 10) in
      let acc' := String d acc in
      match N.div n 10 with
      | N0 => acc'
      | q => digits fuel' q acc'
      end
  end.

Definition str_nat (n : N) : string := digits (S (N.to_nat (N.log2 n))) n "".

Definition str_int (z : Z) : string :=
  match z with
  | Z0 => "0"
  | Zpos p => str_nat (Npos p)
  | Zneg p => "-" +:+ str_nat (Npos p)
  end.

End PyStr.

(** ** Python dictionaries

    A [dict] keeps its keys in insertion order and holds each key once;
    assigning to a key that is present replaces the value in place. *)

Module PyDict.

Definition t (V : Type) : Type := list (string * V).

Fixpoint set {V} (k : string) (v : V) (d : t V) : t V :=
  match d with
  | [] => [(k, v)]
  | (k', v') :: d' =>
      if String.eqb k k' then (k, v) :: d' else (k', v') :: set k v d'
  end.

Fixpoint get {V} (k : string) (d : t V) : option V :=
  match d with
  | [] => None
  | (k', v') :: d' => if String.eqb k k' then Some v' else get k d'
  end.

(** [k in d.keys()] *)
Definition mem {V} (k : string) (d : t V) : bool :=
  match get k d with Some _ => true | None => false end.

Definition keys {V} (d : t V) : list string := map fst d.

(** Truth value of a dict: [if d:] *)
Definition truthy {V} (d : t V) : bool :=
  match d with [] => false | _ :: _ => true end.

(** [{f(k): v for k, v in d.items() if c(k)}] *)
Definition comprehension {V} (f : string -> string) (c : string -> bool)
    (d : t V) : t V :=
  fold_left (fun acc kv => if c (fst kv) then set (f (fst kv)) (snd kv) acc else acc)
            d [].

End PyDict.

(** ** Python floats and their printing

    A score is a Python float, and ['{}'.format(x)] prints a float as
    [repr(x)]: the shortest decimal string that reads back as [x], in
    positional notation with at least one digit after the point, and in
    exponent notation when the decimal exponent is below [-4] or above
    [15].  A finite float is [m * 2^e] with [2^52 <= m < 2^53] (or
    [e = -1074] for a subnormal); arithmetic is exact, on integers. *)

Module PyFloat.

#[local] Open Scope Z_scope.

Inductive t : Set :=
| Nan
| Inf (neg : bool)
| Zero (neg : bool)
| Finite (neg : bool) (m : positive) (e : Z).

Definition eqb (x y : t) : bool :=
  match x, y with
  | Nan, Nan => true
  | Inf a, Inf b => Bool.eqb a b
  | Zero a, Zero b => Bool.eqb a b
  | Finite a m e, Finite b m' e' => Bool.eqb a b && Pos.eqb m m' && Z.eqb e e'
  | _, _ => false
  end.

(** [n / d] rounded to the nearest integer, ties to even. *)
Definition round_half_even (n d : Z) : Z :=
  let q := n / d in
  let r := n mod d in
  match 2 * r ?= d with
  | Lt => q
  | Gt => q + 1
  | Eq => if Z.even q then q else q + 1
  end.

(** The float nearest to the rational [n / d], for [d > 0]. *)
Definition of_ratio (neg : bool) (n d : Z) : t :=
  if n <=? 0 then Zero neg
  else
    let e0 := Z.log2 n - Z.log2 d - 52 in
    let below :=
      if 0 <=? e0 then n <? d * 2 ^ (52 + e0)
      else n * 2 ^ (- e0) <? d * 2 ^ 52 in
    let e1 := if below then e0 - 1 else e0 in
    let e := Z.max e1 (-1074) in
    let m := if 0 <=? e then round_half_even n (d * 2 ^ e)
             else round_half_even (n * 2 ^ (- e)) d in
    let e' := if m =? 2 ^ 53 then e + 1 else e in
    let m' := if m =? 2 ^ 53 then 2 ^ 52 else m in
    if 971 <? e' then Inf neg
    else match m' with
         | Zpos p => Finite neg p e'
         | _ => Zero neg
         end.

(** The float a decimal literal denotes: [of_decimal false 8532 (-4)] is
    the float [0.8532]. *)
Definition of_decimal (neg : bool) (digits : Z) (exp10 : Z) : t :=
  if 0 <=? exp10 then of_ratio neg (digits * 10 ^ exp10) 1
  else of_ratio neg digits (10 ^ (- exp10)).

(** [10^k <= n / d] *)
Definition pow10_le (k n d : Z) : bool :=
  if 0 <=? k then 10 ^ k * d <=? n else d <=? n * 10 ^ (- k).

Fixpoint climb (fuel : nat) (k n d : Z) : Z :=
  match fuel with
  | O => k
  | S f => if pow10_le (k + 1) n d then climb f (k + 1) n d else k
  end.

(** The decimal exponent of [n / d]: the [k] with
    [10^k <= n / d < 10^(k+1)], reached from an estimate below it. *)
Definition floor_log10 (n d : Z) : Z :=
  let l := Z.log2 n - Z.log2 d in
  climb 8 ((l - 1) * 30103 / 100000 - 2) n d.

Fixpoint nat_digits (fuel : nat) (n : Z) (acc : string) : string :=
  match fuel with
  | O => acc
  | S f =>
      let acc' := String (ascii_of_N (48 + Z.to_N (n mod 10))) acc in
      if n / 10 =? 0 then acc' else nat_digits f (n / 10) acc'
  end.

(** The decimal digits of a natural number. *)
Definition digits_of (n : Z) : string :=
  nat_digits (S (Z.to_nat (Z.log2 n))) n "".

Fixpoint strip_zeros (s : string) : string :=
  match s with
  | String "0" s' => strip_zeros s'
  | _ => s
  end.

Fixpoint rev_app (s acc : string) : string :=
  match s with
  | EmptyString => acc
  | String c s' => rev_app s' (String c acc)
  end.

Definition strip_trailing_zeros (s : string) : string :=
  rev_app (strip_zeros (rev_app s "")) "".

(** The shortest digit string that reads back as [x = xn / xd], tried
    with [n], [n + 1], ... significant digits (17 always do), and the
    position of the decimal point after its first digits. *)
Fixpoint shortest (fuel : nat) (n : Z) (x : t) (k xn xd : Z) : string * Z :=
  let p := k - n + 1 in
  let sn := if 0 <=? p then xn else xn * 10 ^ (- p) in
  let sd := if 0 <=? p then xd * 10 ^ p else xd in
  let lo := sn / sd in
  let r := sn mod sd in
  let back c := eqb (of_decimal false c p) x in
  let pick c := (strip_trailing_zeros (digits_of c),
                 Z.of_nat (String.length (digits_of c)) + p) in
  match fuel with
  | O => pick (round_half_even sn sd)
  | S f =>
      if r =? 0 then pick lo
      else
        match back lo, back (lo + 1) with
        | true, true => pick (round_half_even sn sd)
        | true, false => pick lo
        | false, true => pick (lo + 1)
        | false, false => shortest f (n + 1) x k xn xd
        end
  end.

Definition zeros (n : Z) : string := Z.iter n (String "0") "".

Fixpoint prefix (n : nat) (s : string) : string :=
  match n, s with
  | S n', String c s' => String c (prefix n' s')
  | _, _ => ""
  end.

Fixpoint suffix (n : nat) (s : string) : string :=
  match n, s with
  | S n', String c s' => suffix n' s'
  | _, _ => s
  end.

(** The exponent of the exponent notation: a sign and at least two
    digits. *)
Definition exponent (e : Z) : string :=
  String.append (if e <? 0 then "-" else "+")
    (String.append (if Z.abs e <? 10 then "0" else "") (digits_of (Z.abs e))).

Definition repr_finite (m : positive) (e : Z) : string :=
  let xn := if 0 <=? e then Zpos m * 2 ^ e else Zpos m in
  let xd := if 0 <=? e then 1 else 2 ^ (- e) in
  let x := of_ratio false xn xd in
  let k := floor_log10 xn xd in
  let '(ds, decpt) := shortest 16 1 x k xn xd in
  let nd := Z.of_nat (String.length ds) in
  if (decpt <=? -4) || (16 <? decpt) then
    String.append (prefix 1 ds)
      (String.append (if 1 <? nd then String.append "." (suffix 1 ds) else "")
         (String.append "e" (exponent (decpt - 1))))
  else if decpt <=? 0 then
    String.append "0." (String.append (zeros (- decpt)) ds)
  else if nd <=? decpt then
    String.append ds (String.append (zeros (decpt - nd)) ".0")
  else
    String.append (prefix (Z.to_nat decpt) ds)
      (String.append "." (suffix (Z.to_nat decpt) ds)).

(** [repr(x)], which is also [str(x)] and ['{}'.format(x)]. *)
Definition repr (x : t) : string :=
  match x with
  | Nan => "nan"
  | Inf neg => if neg then "-inf" else "inf"
  | Zero neg => if neg then "-0.0" else "0.0"
  | Finite neg m e =>
      String.append (if neg then "-" else "") (repr_finite m e)
  end.

End PyFloat.

(** ** Checkpoint key normalisation ([load_model], the [while True] block) *)

Definition backbone_prefix : string := "backbone.encoder.".
Definition encoder_prefix : string := "encoder.encoder.".

(** [{k.replace(p, ""): v for k, v in sd.items() if p in k}] *)
Definition clean_by {V} (p : string) (sd : PyDict.t V) : PyDict.t V :=
  PyDict.comprehension (PyStr.replace p "") (PyStr.contains p) sd.

(** The body of the [while True] block: every path ends in [break], so it
    runs once. *)
Definition clean_state_dict {V} (sd : PyDict.t V) : PyDict.t V :=
  let clean_sd := clean_by backbone_prefix sd in
  if PyDict.truthy clean_sd then clean_sd
  else
    let clean_sd := clean_by encoder_prefix sd in
    if PyDict.truthy clean_sd then clean_sd
    else sd.

(** ** Exceptions, results and the effect monad *)

Inductive exn : Set :=
| TypeError | IndexError | AttributeError | RuntimeError | OSError.

Inductive result (A : Type) : Type :=
| Ok (a : A)
| Raise (e : exn).
Arguments Ok {A} a.
Arguments Raise {A} e.

(** Numeric precision of a tensor or array.  numpy has no bfloat16. *)
Inductive dtype : Set := Float16 | BFloat16 | Float32 | Float64.

(** Arguments of [TorchMLPClassifier(...)]. *)
Record ClfConfig : Set := {
  hidden_layer_sizes : list Z;
  max_iter : Z;
  early_stopping : bool;
  n_iter_no_change : Z;
  debug : bool
}.

(** Calls the script makes to its collaborators, in program order.
    [print], [tqdm] and the timers only write to the terminal and are
    left out. *)
Inductive Event : Set :=
| EvMakedirs (path : string)                  (* os.makedirs(path, exist_ok=True) *)
| EvFileHandler (path : string)               (* logging.FileHandler(path, mode="a") *)
| EvDataLoader (split : string)               (* DataLoader(datasets.FSD50K(args, split=...)) *)
| EvModelWrapper                              (* ModelWrapper(args) *)
| EvTorchLoad (path : string)                 (* torch.load(path, map_location='cpu') *)
| EvLoadStateDict (ks : list string) (strict : bool)
| EvCuda                                      (* model.cuda() *)
| EvEval                                      (* model.eval() *)
| EvGradScaler                                (* torch.cuda.amp.GradScaler() *)
| EvForward (autocast : bool)                 (* model(data.cuda()) *)
| EvEncodeVit (autocast split_frames use_cls : bool)
| EvClfNew (cfg : ClfConfig)
| EvClfFit (with_val : bool)
| EvClfScore
| EvLowShot (n : Z)
| EvLogInfo (path line : string).             (* logger.info(line), handled by the file handler *)

(** The part of the world the script acts on: the log files (a file is
    the list of its lines) and the calls made so far. *)
Record World : Type := {
  files : gmap string (list string);
  trace : list Event
}.

Definition M (A : Type) : Type := World -> result A * World.

Definition ret {A} (a : A) : M A := fun w => (Ok a, w).

Definition raise {A} (e : exn) : M A := fun w => (Raise e, w).

Definition bind {A B} (c : M A) (k : A -> M B) : M B :=
  fun w =>
    match c w with
    | (Ok a, w') => k a w'
    | (Raise e, w') => (Raise e, w')
    end.

Declare Scope py_scope.
Delimit Scope py_scope with py.
Notation "x <- c ;; k" := (bind c (fun x => k))
  (at level 100, c at next level, right associativity) : py_scope.
Notation "c ;; k" := (bind c (fun _ => k))
  (at level 100, k at level 200, right associativity) : py_scope.
Open Scope py_scope.

Definition lift {A} (r : result A) : M A := fun w => (r, w).

(** The world after the calls [evs] have been made. *)
Definition log_events (evs : list Event) (w : World) : World :=
  {| files := files w; trace := (trace w ++ evs)%list |}.

Definition emit (e : Event) : M unit :=
  fun w => (Ok tt, log_events [e] w).

(** A call to a collaborator: it is recorded, then it returns or raises. *)
Definition call {A} (e : Event) (r : result A) : M A :=
  emit e ;; lift r.

(** Opening a file for appending creates it when it does not exist. *)
Definition open_append (path : string) : M unit :=
  fun w =>
    (Ok tt,
     {| files := match files w !! path with
                 | Some _ => files w
                 | None => <[path := []]> (files w)
                 end;
        trace := (trace w ++ [EvFileHandler path])%list |}).

(** [logger.info(line)] with the single file handler on [path]. *)
Definition logger_info (path line : string) : M unit :=
  fun w =>
    (Ok tt,
     {| files := <[path := (default [] (files w !! path) ++ [line])%list]> (files w);
        trace := (trace w ++ [EvLogInfo path line])%list |}).

(** [xs[i]] for [i >= 0] *)
Definition index {A} (xs : list A) (i : nat) : M A :=
  match xs !! i with
  | Some x => ret x
  | None => raise IndexError
  end.

(** ** Command line *)

Record Args : Set := {
  dataset : string;
  model_type : string;
  use_cls : bool;
  use_fp16_eval : bool;
  batch_size : Z;
  num_workers : Z;
  model_file_path : string;   (* default "" *)
  model_name : string;        (* default "" *)
  model_epoch : Z             (* default 100 *)
}.

(** ** The collaborators *)

Set Warnings "-register-all".

(** What an encoder call returns: a tensor (its precision and its rows),
    or a Python list or tuple of such values. *)
Inductive pyout (Row : Type) : Type :=
| OTensor (dt : dtype) (rows : list Row)
| OList (items : list (pyout Row))
| OTuple (items : list (pyout Row)).
Arguments OTensor {Row} dt rows.
Arguments OList {Row} items.
Arguments OTuple {Row} items.

(** What [torch.load] returns: a tensor or a dict of such values. *)
Inductive pyval (Weights : Type) : Type :=
| PTensor (w : Weights)
| PDict (d : list (string * pyval Weights)).
Arguments PTensor {Weights} w.
Arguments PDict {Weights} d.

(** The code the script calls and does not define: the other modules of
    the repository ([model], [utils], [datasets]) and the libraries.  A
    call that can raise returns a [result].  The [bool] argument of
    [forward] and the first one of [encode_vit] say whether the call runs
    under an enabled [autocast]; the other two of [encode_vit] are
    [split_frames] and [use_cls].  The last argument of
    [eval_linear_low_shot] is [n], the [bool] of [load_state_dict] is
    [strict], the [string] of [fsd50k_loader] is the split, and a loader
    is given by the batches its iteration yields. *)
Class External : Type := {
  Input : Type;      (* one example of a data batch *)
  Row : Type;        (* one row of an encoder output *)
  Label : Type;
  Score : Type;
  Weights : Type;
  Model : Type;
  Clf : Type;
  (* model.py *)
  ModelWrapper : Args -> Model;
  attr_encoder : Model -> Model;                      (* [m.encoder] *)
  forward : Model -> bool -> list Input -> result (pyout Row);
  (* utils.utils *)
  encode_vit : Model -> bool -> list Input -> bool -> bool -> result (pyout Row);
  eval_linear_low_shot :
    list (dtype * Row) -> list Label -> list (dtype * Row) -> list Label ->
    list (dtype * Row) -> list Label -> Z -> list Score;
  (* torch *)
  torch_load : string -> result (pyval Weights);
  state_dict_keys : Model -> list string;             (* [m.state_dict().keys()] *)
  load_state_dict : Model -> PyDict.t (pyval Weights) -> bool -> result Model;
  (* datasets, torch.utils.data *)
  fsd50k_loader : Args -> string -> result (list (list Input * list Label));
  (* utils.torch_mlp_clf *)
  clf_fit :
    ClfConfig -> list (dtype * Row) -> list Label ->
    option (list (dtype * Row)) -> option (list Label) -> Clf;
  clf_score : Clf -> list (dtype * Row) -> list Label -> Score;
  (* '{}'.format(x) for a score *)
  str_score : Score -> string
}.

(** ** The script *)

Section Script.

Context `{Ext : External}.

Definition Batch : Type := list Input * list Label.
Definition Loader : Type := list Batch.
Definition Array : Type := list (dtype * Row).

(** Lines 32-41: the encoder call made for one batch under
    [autocast(enabled=(fp16_scaler is not None))], as the call recorded
    and what it returns; [args] is the module-level global. *)
Definition autocast_enabled (fp16_scaler : option unit) : bool :=
  match fp16_scaler with Some _ => true | None => false end.

Definition encode_call (args : Args) (model : Model)
    (fp16_scaler : option unit) (data : list Input)
    : Event * result (pyout Row) :=
  let enabled := autocast_enabled fp16_scaler in
  if PyStr.contains "vit" (model_type args)
  then (EvEncodeVit enabled true (use_cls args),
        encode_vit (attr_encoder model) enabled data true (use_cls args))
  else (EvForward enabled, forward model enabled data).

Definition encode (args : Args) (model : Model) (fp16_scaler : option unit)
    (data : list Input) : M (pyout Row) :=
  call (fst (encode_call args model fp16_scaler data))
       (snd (encode_call args model fp16_scaler data)).

(** Lines 42-43: [if isinstance(emb, list): emb = emb[-1]] *)
Definition select_final (emb : pyout Row) : result (pyout Row) :=
  match emb with
  | OList items =>
      match last items with
      | Some x => Ok x
      | None => Raise IndexError
      end
  | OTensor _ _ | OTuple _ => Ok emb
  end.

(** Line 44: [emb.detach().cpu().numpy()]; a list or a tuple has no
    [detach], and numpy has no bfloat16 ([numpy()] raises [TypeError]).
    The array has the tensor's rows and the tensor's precision. *)
Definition to_numpy (emb : pyout Row) : result Array :=
  match emb with
  | OTensor BFloat16 _ => Raise TypeError
  | OTensor dt rows => Ok (map (pair dt) rows)
  | OList _ | OTuple _ => Raise AttributeError
  end.

(** Lines 31-48: the loop over the batches, with the two accumulators. *)
Fixpoint get_embeddings_loop (args : Args) (model : Model)
    (fp16_scaler : option unit) (data_loader : Loader)
    (embs : Array) (targets : list Label) : M (Array * list Label) :=
  match data_loader with
  | [] => ret (embs, targets)
  | (data, target) :: rest =>
      emb <- encode args model fp16_scaler data ;;
      emb <- lift (select_final emb) ;;
      emb <- lift (to_numpy emb) ;;
      get_embeddings_loop args model fp16_scaler rest
        (embs ++ emb)%list (targets ++ target)%list
  end.

Definition get_embeddings (args : Args) (model : Model) (data_loader : Loader)
    (fp16_scaler : option unit) : M (Array * list Label) :=
  emit EvEval ;;
  get_embeddings_loop args model fp16_scaler data_loader [] [].

(** Lines 67-73 *)
Definition clf_config : ClfConfig :=
  {| hidden_layer_sizes := [1024%Z];
     max_iter := 500;
     early_stopping := true;
     n_iter_no_change := 20;
     debug := true |}.

Record Results : Type := {
  score_all : Score;
  score_5 : list Score
}.

Definition eval_linear (args : Args) (model : Model)
    (train_loader val_loader test_loader : Loader) (use_fp16 : bool)
    : M Results :=
  fp16_scaler <- (if use_fp16 then (emit EvGradScaler ;; ret (Some tt))
                  else ret None) ;;
  tr <- get_embeddings args model train_loader fp16_scaler ;;
  va <- get_embeddings args model val_loader fp16_scaler ;;
  te <- get_embeddings args model test_loader fp16_scaler ;;
  let '(X_train, y_train) := tr in
  let '(X_val, y_val) := va in
  let '(X_test, y_test) := te in
  emit (EvClfNew clf_config) ;;
  emit (EvClfFit true) ;;
  let clf := clf_fit clf_config X_train y_train (Some X_val) (Some y_val) in
  emit EvClfScore ;;
  let score_all := clf_score clf X_test y_test in
  emit (EvLowShot 5) ;;
  let score_5 :=
    eval_linear_low_shot X_train y_train X_val y_val X_test y_test 5 in
  ret {| score_all := score_all; score_5 := score_5 |}.

Definition get_fsd50k (args : Args) : M (Loader * Loader * Loader) :=
  eval_train_loader <- call (EvDataLoader "train") (fsd50k_loader args "train") ;;
  eval_val_loader <- call (EvDataLoader "val") (fsd50k_loader args "val") ;;
  eval_test_loader <- call (EvDataLoader "test") (fsd50k_loader args "test") ;;
  ret (eval_train_loader, eval_val_loader, eval_test_loader).

(** Without a [return] the function gives [None]. *)
Definition get_data (args : Args) : M (option (Loader * Loader * Loader)) :=
  if String.eqb (dataset args) "fsd50k"
  then r <- get_fsd50k args ;; ret (Some r)
  else ret None.

(** [sd.keys()], [sd.items()]: only a dict has them. *)
Definition as_dict (v : pyval Weights) : result (PyDict.t (pyval Weights)) :=
  match v with
  | PDict d => Ok d
  | PTensor _ => Raise AttributeError
  end.

(** Lines 120-121 and the first use of [sd.items()]. *)
Definition unwrap_model (sd : pyval Weights)
    : result (PyDict.t (pyval Weights)) :=
  match as_dict sd with
  | Ok d =>
      if PyDict.mem "model" d
      then match PyDict.get "model" d with
           | Some v => as_dict v
           | None => Raise AttributeError
           end
      else Ok d
  | Raise e => Raise e
  end.

Definition load_model (args : Args) : M Model :=
  emit EvModelWrapper ;;
  let model := attr_encoder (ModelWrapper args) in
  if negb (String.eqb (model_file_path args) "")
  then
    sd <- call (EvTorchLoad (model_file_path args))
               (torch_load (model_file_path args)) ;;
    d <- lift (unwrap_model sd) ;;
    let clean_sd := clean_state_dict d in
    call (EvLoadStateDict (PyDict.keys clean_sd) true)
         (load_state_dict model clean_sd true)
  else ret model.

Definition log_dir (args : Args) : string :=
  "logs/linear_eval/" +:+ dataset args +:+ "/" +:+ model_name args +:+ "/".

Definition log_path (args : Args) : string :=
  PyStr.path_join (log_dir args) "log.csv".

Definition log_template : string :=
  "epoch,{},linear_score,{},linear_score_5_mean,{},linear_score_5_std,{}".

Definition main (args : Args) : M unit :=
  emit (EvMakedirs (log_dir args)) ;;
  open_append (log_path args) ;;
  loaders <- get_data args ;;
  loaders <- (match loaders with
              | Some t => ret t
              | None => raise TypeError
              end) ;;
  let '(eval_train_loader, eval_val_loader, eval_test_loader) := loaders in
  model <- load_model args ;;
  emit EvCuda ;;
  emit EvEval ;;
  scores <- eval_linear args model eval_train_loader eval_val_loader
              eval_test_loader (use_fp16_eval args) ;;
  let score_all := score_all scores in
  let score_5 := score_5 scores in
  mean <- index score_5 0 ;;
  std <- index score_5 1 ;;
  line <- (match PyStr.format log_template
                   [PyStr.str_int (model_epoch args); str_score score_all;
                    str_score mean; str_score std] with
           | Some l => ret l
           | None => raise IndexError
           end) ;;
  logger_info (log_path args) line.

End Script.

(** ** Vocabulary of the statements *)

(** The prefix [p] occurs in some key of [sd]. *)
Definition occurs {V} (p : string) (sd : PyDict.t V) : bool :=
  existsb (PyStr.contains p) (PyDict.keys sd).

(** Two key lists name the same parameters. *)
Definition keys_match (ks1 ks2 : list string) : bool :=
  forallb (fun k => existsb (String.eqb k) ks2) ks1 &&
  forallb (fun k => existsb (String.eqb k) ks1) ks2.

(** [emits P c]: running [c] only adds calls to the trace, and every call
    it adds satisfies [P]. *)
Definition emits {A} (P : Event -> Prop) (c : M A) : Prop :=
  forall w, exists evs,
    trace (snd (c w)) = trace w ++ evs /\ Forall P evs.

(** [keeps_files c]: running [c] leaves every file as it is. *)
Definition keeps_files {A} (c : M A) : Prop :=
  forall w, files (snd (c w)) = files w.

(** Every classifier built has the configuration [cfg]. *)
Definition classifiers_use (cfg : ClfConfig) (e : Event) : Prop :=
  match e with
  | EvClfNew c => c = cfg
  | _ => True
  end.

(** Every low-shot evaluation takes [n] examples per class. *)
Definition low_shot_uses (n : Z) (e : Event) : Prop :=
  match e with
  | EvLowShot m => m = n
  | _ => True
  end.

(** A call other than [logger.info]. *)
Definition quiet (e : Event) : Prop :=
  match e with
  | EvLogInfo _ _ => False
  | _ => True
  end.

Section Vocabulary.

Context `{Ext : External}.

(** The encoder as [ModelWrapper] built it, before any weights are
    loaded. *)
Definition fresh_encoder (args : Args) : Model :=
  attr_encoder (ModelWrapper args).

(** What one pass of the loop body adds to [embs]: the encoder call, the
    selection of the last list element, the conversion to an array. *)
Definition batch_array (args : Args) (model : Model)
    (fp16_scaler : option unit) (data : list Input) : result Array :=
  match snd (encode_call args model fp16_scaler data) with
  | Ok emb =>
      match select_final emb with
      | Ok emb' => to_numpy emb'
      | Raise e => Raise e
      end
  | Raise e => Raise e
  end.

(** The encoder call recorded for a batch. *)
Definition batch_event (args : Args) (model : Model)
    (fp16_scaler : option unit) (b : Batch) : Event :=
  fst (encode_call args model fp16_scaler (fst b)).

(** The forward pass on one batch, with [autocast] enabled ([reduced])
    or not: through [utils.encode_vit] for a ViT, through the model
    otherwise. *)
Definition forward_pass (args : Args) (model : Model) (reduced : bool)
    (data : list Input) : result (pyout Row) :=
  if PyStr.contains "vit" (model_type args)
  then encode_vit (attr_encoder model) reduced data true (use_cls args)
  else forward model reduced data.

(** With [autocast] enabled or not as [reduced] says, the forward pass
    on the batch [b] goes through and its output, or the last element of
    the list it returns, is a tensor of precision [dt] with the rows
    [rows]. *)
Definition encoded (args : Args) (model : Model) (reduced : bool)
    (dt : dtype) (b : Batch) (rows : list Row) : Prop :=
  forward_pass args model reduced (fst b) = Ok (OTensor dt rows) \/
  exists init,
    forward_pass args model reduced (fst b) =
    Ok (OList (init ++ [OTensor dt rows])).

(** Total number of examples of a loader. *)
Definition total_examples (dl : Loader) : nat :=
  list_sum (map (fun b => length (fst b)) dl).

(** [eval_linear] once [fp16_scaler] is set (lines 58-89). *)
Definition eval_linear_from (args : Args) (model : Model)
    (train_loader val_loader test_loader : Loader)
    (fp16_scaler : option unit) : M Results :=
  tr <- get_embeddings args model train_loader fp16_scaler ;;
  va <- get_embeddings args model val_loader fp16_scaler ;;
  te <- get_embeddings args model test_loader fp16_scaler ;;
  let '(X_train, y_train) := tr in
  let '(X_val, y_val) := va in
  let '(X_test, y_test) := te in
  emit (EvClfNew clf_config) ;;
  emit (EvClfFit true) ;;
  let clf := clf_fit clf_config X_train y_train (Some X_val) (Some y_val) in
  emit EvClfScore ;;
  let score_all := clf_score clf X_test y_test in
  emit (EvLowShot 5) ;;
  let score_5 :=
    eval_linear_low_shot X_train y_train X_val y_val X_test y_test 5 in
  ret {| score_all := score_all; score_5 := score_5 |}.

(** The scaler [eval_linear] creates, and the world after that. *)
Definition scaler_of (use_fp16 : bool) : option unit :=
  if use_fp16 then Some tt else None.

Definition scaler_world (use_fp16 : bool) (w : World) : World :=
  if use_fp16 then log_events [EvGradScaler] w else w.

(** The record [eval_linear] returns for given embeddings. *)
Definition results_of (X_train : Array) (y_train : list Label)
    (X_val : Array) (y_val : list Label)
    (X_test : Array) (y_test : list Label) : Results :=
  {| score_all :=
       clf_score (clf_fit clf_config X_train y_train (Some X_val) (Some y_val))
                 X_test y_test;
     score_5 :=
       eval_linear_low_shot X_train y_train X_val y_val X_test y_test 5 |}.

(** The calls [eval_linear] makes after the extraction. *)
Definition clf_events : list Event :=
  [EvClfNew clf_config; EvClfFit true; EvClfScore; EvLowShot 5].

(** The calls [get_fsd50k] makes. *)
Definition loader_events : list Event :=
  [EvDataLoader "train"; EvDataLoader "val"; EvDataLoader "test"].

(** The log line in the words of the interface description:
    [epoch,<e>,linear_score,<s>,linear_score_5_mean,<m>,linear_score_5_std,<sd>]. *)
Definition log_line (epoch : Z) (s m sd : Score) : string :=
  "epoch," +:+ PyStr.str_int epoch +:+
  ",linear_score," +:+ str_score s +:+
  ",linear_score_5_mean," +:+ str_score m +:+
  ",linear_score_5_std," +:+ str_score sd.

(** The world once the log directory and the log file are there. *)
Definition opened (args : Args) (w : World) : World :=
  snd (open_append (log_path args) (log_events [EvMakedirs (log_dir args)] w)).

(** Lines 154-166 up to the formatting of the line. *)
Definition main_line (args : Args) : M string :=
  loaders <- get_data args ;;
  loaders <- (match loaders with
              | Some t => ret t
              | None => raise TypeError
              end) ;;
  let '(eval_train_loader, eval_val_loader, eval_test_loader) := loaders in
  model <- load_model args ;;
  emit EvCuda ;;
  emit EvEval ;;
  scores <- eval_linear args model eval_train_loader eval_val_loader
              eval_test_loader (use_fp16_eval args) ;;
  let score_all := score_all scores in
  let score_5 := score_5 scores in
  mean <- index score_5 0 ;;
  std <- index score_5 1 ;;
  match PyStr.format log_template
          [PyStr.str_int (model_epoch args); str_score score_all;
           str_score mean; str_score std] with
  | Some l => ret l
  | None => raise IndexError
  end.

(** What [load_state_dict(..., strict=True)] promises: a state dict whose
    keys are not the model's parameter names is refused. *)
Definition strict_contract : Prop :=
  forall (m : Model) (sd : PyDict.t (pyval Weights)),
    keys_match (PyDict.keys sd) (state_dict_keys m) = false ->
    load_state_dict m sd true = Raise RuntimeError.

(** The reading of "the output is always converted back to standard
    precision before it is stored": every row of the array the extractor
    returns is in single precision. *)
Definition stores_standard_precision (args : Args)
    (model : Model) (dl : Loader) (fp16_scaler : option unit) (w : World)
    : Prop :=
  forall embs targets w',
    get_embeddings args model dl fp16_scaler w = (Ok (embs, targets), w') ->
    Forall (fun r => fst r = Float32) embs.

(** The reading of "for every run, exactly one line is appended to the
    log file": after the run the file holds what it held and one more
    line. *)
Definition appends_one_line (args : Args) (w : World) : Prop :=
  exists line,
    files (snd (main args w)) !! log_path args =
    Some (default [] (files w !! log_path args) ++ [line]).

End Vocabulary.

(** The calls a run of the script with arguments [args] can make. *)
Inductive script_event (args : Args) : Event -> Prop :=
| se_makedirs : script_event args (EvMakedirs (log_dir args))
| se_file_handler : script_event args (EvFileHandler (log_path args))
| se_data_loader split :
    dataset args = "fsd50k" -> split ∈ ["train"; "val"; "test"] ->
    script_event args (EvDataLoader split)
| se_model_wrapper : script_event args EvModelWrapper
| se_torch_load :
    model_file_path args <> "" ->
    script_event args (EvTorchLoad (model_file_path args))
| se_load_state_dict ks :
    model_file_path args <> "" ->
    script_event args (EvLoadStateDict ks true)
| se_cuda : script_event args EvCuda
| se_eval : script_event args EvEval
| se_grad_scaler :
    use_fp16_eval args = true -> script_event args EvGradScaler
| se_forward :
    PyStr.contains "vit" (model_type args) = false ->
    script_event args (EvForward (use_fp16_eval args))
| se_encode_vit :
    PyStr.contains "vit" (model_type args) = true ->
    script_event args (EvEncodeVit (use_fp16_eval args) true (use_cls args))
| se_clf_new : script_event args (EvClfNew clf_config)
| se_clf_fit : script_event args (EvClfFit true)
| se_clf_score : script_event args EvClfScore
| se_low_shot : script_event args (EvLowShot 5)
| se_log_info line : script_event args (EvLogInfo (log_path args) line).

(** ** A small concrete installation, used to run the script *)

Module Toy.

(** A strict loader: it refuses a state dict whose keys are not the
    model's. *)
Definition strict_load (m : list string) (sd : PyDict.t (pyval nat))
    (strict : bool) : result (list string) :=
  if strict && negb (keys_match (PyDict.keys sd) m)
  then Raise RuntimeError else Ok m.

Definition loader (split : string) : list (list nat * list nat) :=
  if String.eqb split "train" then [([1; 2], [10; 20]); ([3], [30])]
  else if String.eqb split "val" then [([4], [40])]
  else [([5; 6], [50; 60])].

Definition checkpoint (path : string) : result (pyval nat) :=
  if String.eqb path "ckpt.pth"
  then Ok (PDict [("epoch", PTensor 7);
                  ("model", PDict [("backbone.encoder.conv.weight", PTensor 1);
                                   ("backbone.projector.weight", PTensor 2);
                                   ("backbone.encoder.fc.bias", PTensor 3)])])
  else if String.eqb path "other.pth"
  then Ok (PDict [("encoder.encoder.conv.weight", PTensor 1);
                  ("head.weight", PTensor 2)])
  else if String.eqb path "plain.pth"
  then Ok (PDict [("conv.weight", PTensor 1); ("fc.bias", PTensor 3)])
  else Raise OSError.

(** The encoder doubles every input; under autocast its output is in half
    precision.  The ViT path returns the outputs of two layers.  A score
    is kept as the decimal literal Python prints for it. *)
Definition ext : External := {|
  Input := nat; Row := nat; Label := nat; Score := string; Weights := nat;
  Model := list string; Clf := unit;
  ModelWrapper := fun _ => ["conv.weight"; "fc.bias"];
  attr_encoder := fun m => m;
  forward := fun _ autocast data =>
    Ok (OTensor (if autocast then Float16 else Float32) (map (Nat.mul 2) data));
  encode_vit := fun _ autocast data _ _ =>
    Ok (OList [OTensor Float32 (map (Nat.add 1) data);
               OTensor Float32 (map (Nat.mul 2) data)]);
  eval_linear_low_shot := fun _ _ _ _ _ _ _ => ["0.71"; "0.04"];
  torch_load := checkpoint;
  state_dict_keys := fun m => m;
  load_state_dict := strict_load;
  fsd50k_loader := fun _ split => Ok (loader split);
  clf_fit := fun _ _ _ _ _ => tt;
  clf_score := fun _ _ _ => "0.8532";
  str_score := fun s => s
|}.

Definition args : Args :=
  {| dataset := "fsd50k"; model_type := "resnet18"; use_cls := false;
     use_fp16_eval := true; batch_size := 2; num_workers := 0;
     model_file_path := "ckpt.pth"; model_name := "byol"; model_epoch := 100 |}.

Definition with_dataset (d : string) (a : Args) : Args :=
  {| dataset := d; model_type := model_type a; use_cls := use_cls a;
     use_fp16_eval := use_fp16_eval a; batch_size := batch_size a;
     num_workers := num_workers a; model_file_path := model_file_path a;
     model_name := model_name a; model_epoch := model_epoch a |}.

Definition with_path (p : string) (a : Args) : Args :=
  {| dataset := dataset a; model_type := model_type a; use_cls := use_cls a;
     use_fp16_eval := use_fp16_eval a; batch_size := batch_size a;
     num_workers := num_workers a; model_file_path := p;
     model_name := model_name a; model_epoch := model_epoch a |}.

Definition with_model_type (t : string) (a : Args) : Args :=
  {| dataset := dataset a; model_type := t; use_cls := use_cls a;
     use_fp16_eval := use_fp16_eval a; batch_size := batch_size a;
     num_workers := num_workers a; model_file_path := model_file_path a;
     model_name := model_name a; model_epoch := model_epoch a |}.

Definition model : list string := ["conv.weight"; "fc.bias"].

Definition world : World := {| files := ∅; trace := [] |}.

End Toy.

(** ** Vocabulary of the further properties *)

(** The entries of [d] that the comprehension [{f(k): v ... if c(k)}]
    sends to the key [k']. *)
Definition sent_to {V} (f : string -> string) (c : string -> bool)
    (k' : string) (d : PyDict.t V) : PyDict.t V :=
  List.filter (fun kv => c (fst kv) && String.eqb (f (fst kv)) k') d.

(** The entries the comprehension keeps, under their new keys and in the
    order of [d]. *)
Definition renamed {V} (f : string -> string) (c : string -> bool)
    (d : PyDict.t V) : PyDict.t V :=
  map (fun kv => (f (fst kv), snd kv)) (List.filter (fun kv => c (fst kv)) d).

(** One pass of the loop that builds the comprehension. *)
Definition comprehension_step {V} (f : string -> string) (c : string -> bool)
    (acc : PyDict.t V) (kv : string * V) : PyDict.t V :=
  if c (fst kv) then PyDict.set (f (fst kv)) (snd kv) acc else acc.

(** [sd] with [p] put in front of every key: how a wrapper around the
    encoder saves the encoder's state dict. *)
Definition prefixed {V} (p : string) (sd : PyDict.t V) : PyDict.t V :=
  map (fun kv => (p +:+ fst kv, snd kv)) sd.

(** Installations in which a collaborator fails. *)
Module Faulty.

(** The encoder refuses a batch that holds the example [0]. *)
Definition refusing (autocast : bool) (data : list nat) : result (pyout nat) :=
  if existsb (Nat.eqb 0) data then Raise RuntimeError
  else Ok (OTensor Float32 (map (Nat.mul 2) data)).

Definition make
    (fwd : bool -> list nat -> result (pyout nat))
    (low_shot : list string)
    (loaders : string -> result (list (list nat * list nat)))
    (load : string -> result (pyval nat)) : External := {|
  Input := nat; Row := nat; Label := nat; Score := string; Weights := nat;
  Model := list string; Clf := unit;
  ModelWrapper := fun _ => Toy.model;
  attr_encoder := fun m => m;
  forward := fun _ => fwd;
  encode_vit := fun _ autocast data _ _ => Ok (OList []);
  eval_linear_low_shot := fun _ _ _ _ _ _ _ => low_shot;
  torch_load := load;
  state_dict_keys := fun m => m;
  load_state_dict := Toy.strict_load;
  fsd50k_loader := fun _ => loaders;
  clf_fit := fun _ _ _ _ _ => tt;
  clf_score := fun _ _ _ => "0.8532";
  str_score := fun s => s
|}.

(** The encoder fails on the second batch of the train split. *)
Definition loader (split : string) : list (list nat * list nat) :=
  if String.eqb split "train"
  then [([1; 2], [10; 20]); ([0], [30]); ([7], [70])]
  else Toy.loader split.

Definition bad_encoder : External :=
  make refusing ["0.71"; "0.04"] (fun split => Ok (loader split))
       Toy.checkpoint.

(** The low-shot routine returns a single number. *)
Definition short_low_shot : External :=
  make (fun _ data => Ok (OTensor Float32 (map (Nat.mul 2) data)))
       ["0.71"] (fun split => Ok (Toy.loader split)) Toy.checkpoint.

(** The val split cannot be read. *)
Definition no_val : External :=
  make refusing ["0.71"; "0.04"]
       (fun split => if String.eqb split "val" then Raise OSError
                     else Ok (Toy.loader split))
       Toy.checkpoint.

(** The encoder works in bfloat16. *)
Definition brain_float : External :=
  make (fun _ data => Ok (OTensor BFloat16 (map (Nat.mul 2) data)))
       ["0.71"; "0.04"] (fun split => Ok (Toy.loader split)) Toy.checkpoint.

(** The checkpoint has a 'model' entry that is a tensor. *)
Definition odd_checkpoint : External :=
  make refusing ["0.71"; "0.04"] (fun split => Ok (Toy.loader split))
       (fun _ => Ok (PDict [("backbone.encoder.conv.weight", PTensor 1);
                            ("model", PTensor 2)])).

End Faulty.

(** An installation whose scores are floats, printed as Python prints
    them. *)
Module Floats.

Definition ext : External := {|
  Input := nat; Row := nat; Label := nat; Score := PyFloat.t; Weights := nat;
  Model := list string; Clf := unit;
  ModelWrapper := fun _ => Toy.model;
  attr_encoder := fun m => m;
  forward := fun _ autocast data =>
    Ok (OTensor (if autocast then Float16 else Float32) (map (Nat.mul 2) data));
  encode_vit := fun _ autocast data _ _ =>
    Ok (OList [OTensor Float32 (map (Nat.add 1) data);
               OTensor Float32 (map (Nat.mul 2) data)]);
  eval_linear_low_shot := fun _ _ _ _ _ _ _ =>
    [PyFloat.of_decimal false 71 (-2); PyFloat.of_decimal false 4 (-2)];
  torch_load := Toy.checkpoint;
  state_dict_keys := fun m => m;
  load_state_dict := Toy.strict_load;
  fsd50k_loader := fun _ split => Ok (Toy.loader split);
  clf_fit := fun _ _ _ _ _ => tt;
  clf_score := fun _ _ _ => PyFloat.of_decimal false 8532 (-4);
  str_score := PyFloat.repr
|}.

End Floats.

(** ** Laws of the effect monad *)

Section MonadLaws.

Context {A B : Type}.

Lemma bind_ok (c : M A) (k : A -> M B) w a w1 :
  c w = (Ok a, w1) -> bind c k w = k a w1.
Proof. intros E. unfold bind. now rewrite E. Qed.

Lemma bind_raise (c : M A) (k : A -> M B) w e w1 :
  c w = (Raise e, w1) -> bind c k w = (Raise e, w1).
Proof. intros E. unfold bind. now rewrite E. Qed.

Lemma bind_ok_inv (c : M A) (k : A -> M B) w b w' :
  bind c k w = (Ok b, w') ->
  exists a w1, c w = (Ok a, w1) /\ k a w1 = (Ok b, w').
Proof.
  unfold bind. destruct (c w) as [[a|e] w1]; intros E.
  - exists a, w1. split; [reflexivity | exact E].
  - discriminate E.
Qed.

Lemma bind_emit (e : Event) (k : unit -> M B) w :
  bind (emit e) k w = k tt (log_events [e] w).
Proof. reflexivity. Qed.

Lemma bind_ret (a : A) (k : A -> M B) w : bind (ret a) k w = k a w.
Proof. reflexivity. Qed.

Lemma bind_lift (r : result A) (k : A -> M B) w :
  bind (lift r) k w = match r with Ok a => k a w | Raise e => (Raise e, w) end.
Proof. unfold bind, lift. now destruct r. Qed.

Lemma bind_call (ev : Event) (r : result A) (k : A -> M B) w :
  bind (call ev r) k w =
  match r with
  | Ok a => k a (log_events [ev] w)
  | Raise e => (Raise e, log_events [ev] w)
  end.
Proof. unfold call, bind, emit, lift. now destruct r. Qed.

End MonadLaws.

Lemma call_run {A} (ev : Event) (r : result A) w :
  call ev r w = (r, log_events [ev] w).
Proof. reflexivity. Qed.

Lemma log_events_app evs1 evs2 w :
  log_events evs2 (log_events evs1 w) = log_events (evs1 ++ evs2) w.
Proof. unfold log_events. cbn. now rewrite <- app_assoc. Qed.

Lemma log_events_nil w : log_events [] w = w.
Proof. destruct w. unfold log_events. cbn. now rewrite app_nil_r. Qed.

(** ** Dictionaries and the comprehension *)

Section DictFacts.

Context {V : Type}.
Implicit Types (d sd acc : PyDict.t V) (k p : string).

Lemma set_truthy k (v : V) d : PyDict.truthy (PyDict.set k v d) = true.
Proof.
  destruct d as [|[k' v'] d']; cbn; [reflexivity|].
  now destruct (String.eqb k k').
Qed.

Lemma comprehension_truthy_acc (f : string -> string) (c : string -> bool) d acc :
  PyDict.truthy
    (fold_left
       (fun acc kv =>
          if c (fst kv) then PyDict.set (f (fst kv)) (snd kv) acc else acc)
       d acc)
  = PyDict.truthy acc || existsb c (PyDict.keys d).
Proof.
  revert acc. induction d as [|[k v] d IH]; intros acc; cbn.
  - now rewrite orb_false_r.
  - rewrite IH. destruct (c k); cbn.
    + rewrite set_truthy. now rewrite orb_true_r.
    + reflexivity.
Qed.

Lemma comprehension_truthy (f : string -> string) (c : string -> bool) d :
  PyDict.truthy (PyDict.comprehension f c d) = existsb c (PyDict.keys d).
Proof. unfold PyDict.comprehension. now rewrite comprehension_truthy_acc. Qed.

Lemma clean_by_truthy p sd : PyDict.truthy (clean_by p sd) = occurs p sd.
Proof. apply comprehension_truthy. Qed.

Lemma truthy_false_nil d : PyDict.truthy d = false -> d = [].
Proof. destruct d; [reflexivity | discriminate]. Qed.

Lemma truthy_true_cons d : PyDict.truthy d = true -> d <> [].
Proof. destruct d; [discriminate | intros _ E; discriminate E]. Qed.

Lemma clean_state_dict_cases sd :
  clean_state_dict sd =
  if occurs backbone_prefix sd then clean_by backbone_prefix sd
  else if occurs encoder_prefix sd then clean_by encoder_prefix sd
  else sd.
Proof. unfold clean_state_dict. now rewrite !clean_by_truthy. Qed.

End DictFacts.

(** ** The checkpoint loader *)

Section LoadModel.

Context `{Ext : External}.

Lemma load_model_no_path args w :
  model_file_path args = "" ->
  load_model args w = (Ok (fresh_encoder args), log_events [EvModelWrapper] w).
Proof.
  intros Hp. unfold load_model. rewrite bind_emit, Hp. reflexivity.
Qed.

Lemma load_model_read_fails args w e :
  model_file_path args <> "" ->
  torch_load (model_file_path args) = Raise e ->
  load_model args w =
  (Raise e, log_events [EvModelWrapper; EvTorchLoad (model_file_path args)] w).
Proof.
  intros Hp Hl. unfold load_model. rewrite bind_emit.
  apply String.eqb_neq in Hp. rewrite Hp. cbn [negb].
  rewrite bind_call, Hl, log_events_app. reflexivity.
Qed.

Lemma load_model_unwrap_fails args w raw e :
  model_file_path args <> "" ->
  torch_load (model_file_path args) = Ok raw ->
  unwrap_model raw = Raise e ->
  load_model args w =
  (Raise e, log_events [EvModelWrapper; EvTorchLoad (model_file_path args)] w).
Proof.
  intros Hp Hl Hu. unfold load_model. rewrite bind_emit.
  apply String.eqb_neq in Hp. rewrite Hp. cbn [negb].
  rewrite bind_call, Hl, bind_lift, Hu, log_events_app. reflexivity.
Qed.

Lemma load_model_with_path args w raw d :
  model_file_path args <> "" ->
  torch_load (model_file_path args) = Ok raw ->
  unwrap_model raw = Ok d ->
  load_model args w =
  (load_state_dict (fresh_encoder args) (clean_state_dict d) true,
   log_events [EvModelWrapper; EvTorchLoad (model_file_path args);
               EvLoadStateDict (PyDict.keys (clean_state_dict d)) true] w).
Proof.
  intros Hp Hl Hu. unfold load_model. rewrite bind_emit.
  apply String.eqb_neq in Hp. rewrite Hp. cbn [negb].
  rewrite bind_call, Hl, bind_lift, Hu, call_run, !log_events_app.
  reflexivity.
Qed.

(** C2.  The two prefixes are tried in the order "backbone.encoder." then
    "encoder.encoder.": filtering by a prefix that occurs in no key gives
    the empty mapping, filtering by one that occurs in some key gives a
    non-empty mapping, the first non-empty filtered mapping is the one
    used, and the mapping is used as it is when both are empty.  The
    mapping so chosen is what the loader hands to [load_state_dict]. *)
Theorem load_model_prefix_preference args w raw d :
  model_file_path args <> "" ->
  torch_load (model_file_path args) = Ok raw ->
  unwrap_model raw = Ok d ->
  (forall (sd : PyDict.t (pyval Weights)) p,
      occurs p sd = false -> clean_by p sd = []) /\
  (forall (sd : PyDict.t (pyval Weights)) p,
      occurs p sd = true -> clean_by p sd <> []) /\
  (forall sd : PyDict.t (pyval Weights),
      clean_state_dict sd =
      if occurs backbone_prefix sd then clean_by backbone_prefix sd
      else if occurs encoder_prefix sd then clean_by encoder_prefix sd
      else sd) /\
  backbone_prefix = "backbone.encoder." /\
  encoder_prefix = "encoder.encoder." /\
  load_model args w =
  (load_state_dict (fresh_encoder args) (clean_state_dict d) true,
   log_events [EvModelWrapper; EvTorchLoad (model_file_path args);
               EvLoadStateDict (PyDict.keys (clean_state_dict d)) true] w).
Proof.
  intros Hp Hl Hu. repeat split.
  - intros sd p Ho. apply truthy_false_nil. now rewrite clean_by_truthy.
  - intros sd p Ho. apply truthy_true_cons. now rewrite clean_by_truthy.
  - intros sd. apply clean_state_dict_cases.
  - now apply load_model_with_path with (raw := raw).
Qed.

(** C10.  With the default, empty model file path the loader makes one
    call, the construction of the model, and returns its encoder as
    built: the checkpoint is not read and no state dict is loaded.  With
    any other path the checkpoint is read. *)
Theorem load_model_default_path args w :
  (model_file_path args = "" ->
   load_model args w =
   (Ok (fresh_encoder args), log_events [EvModelWrapper] w)) /\
  (model_file_path args <> "" ->
   exists r evs,
     load_model args w =
     (r, log_events (EvModelWrapper :: EvTorchLoad (model_file_path args) :: evs) w)).
Proof.
  split.
  - apply load_model_no_path.
  - intros Hp.
    destruct (torch_load (model_file_path args)) as [raw|e] eqn:Hl.
    + destruct (unwrap_model raw) as [d|e] eqn:Hu.
      * eexists _, _. exact (load_model_with_path args w raw d Hp Hl Hu).
      * exists (Raise e), []. exact (load_model_unwrap_fails args w raw e Hp Hl Hu).
    + exists (Raise e), []. exact (load_model_read_fails args w e Hp Hl).
Qed.

End LoadModel.

(** ** Flattening a list of batches *)

Section Concat.

Context {A : Type}.
Implicit Types (xss : list (list A)) (xs : list A).

(** Position [j] of the [k]-th list is position [offset + j] of the
    flattened list, where [offset] counts the elements before it. *)
Lemma concat_lookup_offset xss k xs j :
  xss !! k = Some xs -> j < length xs ->
  concat xss !! (length (concat (take k xss)) + j) = xs !! j.
Proof.
  revert k. induction xss as [|ys xss IH]; intros k Hk Hj.
  - discriminate Hk.
  - destruct k as [|k]; cbn in *.
    + injection Hk as ->. now apply lookup_app_l.
    + rewrite length_app, <- Nat.add_assoc, lookup_app_r by lia.
      replace (length ys + _ - length ys) with
        (length (concat (take k xss)) + j) by lia.
      now apply IH.
Qed.

(** Every position of the flattened list comes from one such pair. *)
Lemma concat_lookup_inv xss i x :
  concat xss !! i = Some x ->
  exists k xs j,
    xss !! k = Some xs /\ xs !! j = Some x /\
    i = length (concat (take k xss)) + j.
Proof.
  revert i. induction xss as [|ys xss IH]; intros i Hi; cbn in Hi.
  - discriminate Hi.
  - destruct (decide (i < length ys)) as [Hlt|Hge].
    + rewrite lookup_app_l in Hi by exact Hlt.
      exists 0, ys, i. split; [reflexivity | split; [exact Hi | reflexivity]].
    + rewrite lookup_app_r in Hi by lia.
      destruct (IH _ Hi) as (k & xs & j & Hk & Hj & Ei).
      exists (S k), xs, j. split; [exact Hk | split; [exact Hj |]].
      cbn. rewrite length_app. lia.
Qed.

End Concat.

Lemma concat_take_length_eq {A B} (xss : list (list A)) (yss : list (list B)) k :
  Forall2 (fun xs ys => length ys = length xs) xss yss ->
  length (concat (take k yss)) = length (concat (take k xss)).
Proof.
  intros H. revert k. induction H as [|xs ys xss yss Hl _ IH]; intros k.
  - now destruct k.
  - destruct k as [|k]; cbn; [reflexivity|].
    rewrite !length_app, IH, Hl. reflexivity.
Qed.

Lemma concat_length_eq {A B} (xss : list (list A)) (yss : list (list B)) :
  Forall2 (fun xs ys => length ys = length xs) xss yss ->
  length (concat yss) = length (concat xss).
Proof.
  induction 1 as [|xs ys xss yss Hl _ IH]; cbn; [reflexivity|].
  rewrite !length_app, IH, Hl. reflexivity.
Qed.

(** ** The embedding extractor *)

Section Extractor.

Context `{Ext : External}.
Variables (args : Args) (model : Model) (fp16_scaler : option unit).

#[local] Abbreviation batch_array := (batch_array args model fp16_scaler).
#[local] Abbreviation batch_event := (batch_event args model fp16_scaler).

Lemma total_examples_concat dl :
  total_examples dl = length (concat (map fst dl)).
Proof.
  unfold total_examples. induction dl as [|b dl IH]; [reflexivity|].
  change (length (fst b) + list_sum (map (fun b => length (fst b)) dl) =
          length (fst b ++ concat (map fst dl))).
  rewrite length_app, IH. reflexivity.
Qed.

Lemma loop_step data target rest embs targets w :
  get_embeddings_loop args model fp16_scaler ((data, target) :: rest)
    embs targets w =
  match batch_array data with
  | Ok a =>
      get_embeddings_loop args model fp16_scaler rest
        (embs ++ a) (targets ++ target)
        (log_events [batch_event (data, target)] w)
  | Raise e => (Raise e, log_events [batch_event (data, target)] w)
  end.
Proof.
  cbn [get_embeddings_loop]. unfold encode, batch_array, batch_event.
  rewrite bind_call. cbn [fst].
  destruct (snd (encode_call args model fp16_scaler data)) as [emb|e];
    [|reflexivity].
  rewrite bind_lift. destruct (select_final emb) as [emb'|e]; [|reflexivity].
  rewrite bind_lift. destruct (to_numpy emb') as [a|e]; reflexivity.
Qed.

(** When every batch goes through, the loop returns the accumulators
    extended, batch after batch, by the arrays and the label vectors. *)
Lemma loop_ok dl arrs embs targets w :
  Forall2 (fun b a => batch_array (fst b) = Ok a) dl arrs ->
  get_embeddings_loop args model fp16_scaler dl embs targets w =
  (Ok (embs ++ concat arrs, targets ++ concat (map snd dl)),
   log_events (map batch_event dl) w).
Proof.
  intros H. revert embs targets w.
  induction H as [|[data target] a dl arrs Ha _ IH]; intros embs targets w.
  - cbn. now rewrite !app_nil_r, log_events_nil.
  - rewrite loop_step. cbn [fst] in Ha. rewrite Ha, IH, log_events_app.
    cbn. now rewrite !app_assoc.
Qed.

Lemma get_embeddings_ok dl arrs w :
  Forall2 (fun b a => batch_array (fst b) = Ok a) dl arrs ->
  get_embeddings args model dl fp16_scaler w =
  (Ok (concat arrs, concat (map snd dl)),
   log_events (EvEval :: map batch_event dl) w).
Proof.
  intros H. unfold get_embeddings. rewrite bind_emit.
  rewrite (loop_ok _ _ _ _ _ H), log_events_app. reflexivity.
Qed.

End Extractor.

Lemma lookup_map_inv {A B} (f : A -> B) (l : list A) k y :
  map f l !! k = Some y -> exists x, l !! k = Some x /\ y = f x.
Proof.
  revert k. induction l as [|x l IH]; intros k Hk; [discriminate Hk|].
  destruct k as [|k]; cbn in Hk.
  - injection Hk as <-. now exists x.
  - now apply IH.
Qed.

Lemma lookup_map_Some {A B} (f : A -> B) (l : list A) k x :
  l !! k = Some x -> map f l !! k = Some (f x).
Proof.
  revert k. induction l as [|x' l IH]; intros k Hk; [discriminate Hk|].
  destruct k as [|k]; cbn in *.
  - now injection Hk as ->.
  - now apply IH.
Qed.

Lemma take_map {A B} (f : A -> B) (l : list A) k :
  take k (map f l) = map f (take k l).
Proof.
  revert k. induction l as [|x l IH]; intros [|k]; cbn; try reflexivity.
  now rewrite IH.
Qed.

Section ExtractorSpec.

Context `{Ext : External}.

(** C1.  For a non-empty loader whose batches carry one label per example
    and an encoder that returns one row per example, the extractor
    returns the rows of the encoder outputs and the labels of the
    batches, batch after batch; the two arrays have the same number of
    rows, which is the total number of examples; and the example at
    position [i] of the iteration, which is example [j] of some batch
    [k], has at position [i] of the results row [j] of the encoder output
    for batch [k] and label [j] of batch [k]. *)
Theorem get_embeddings_covers args model fp16_scaler
    (dl : Loader) (arrs : list Array) w :
  dl <> [] ->
  Forall (fun b : Batch => length (snd b) = length (fst b)) dl ->
  Forall2 (fun (b : Batch) a =>
             batch_array args model fp16_scaler (fst b) = Ok a /\
             length a = length (fst b)) dl arrs ->
  exists embs targets w',
    get_embeddings args model dl fp16_scaler w = (Ok (embs, targets), w') /\
    embs = concat arrs /\
    targets = concat (map snd dl) /\
    length embs = length targets /\
    length embs = total_examples dl /\
    forall i x,
      concat (map fst dl) !! i = Some x ->
      exists k b a j r l,
        dl !! k = Some b /\ arrs !! k = Some a /\
        i = total_examples (take k dl) + j /\
        fst b !! j = Some x /\ a !! j = Some r /\ snd b !! j = Some l /\
        embs !! i = Some r /\ targets !! i = Some l.
Proof.
  intros _ Hlab Henc.
  assert (Hok : Forall2 (fun (b : Batch) a =>
                  batch_array args model fp16_scaler (fst b) = Ok a) dl arrs).
  { eapply Forall2_impl; [exact Henc|]. now intros b a [H _]. }
  assert (Hrows : Forall2 (fun xs (a : Array) => length a = length xs)
                    (map fst dl) arrs).
  { clear Hok Hlab. induction Henc as [|b a dl arrs [_ Hl] _ IH]; cbn;
      constructor; assumption. }
  assert (Hlabs : Forall2 (fun xs (ls : list Label) => length ls = length xs)
                    (map fst dl) (map snd dl)).
  { clear Hok Henc Hrows. induction Hlab as [|b dl Hl _ IH]; cbn;
      constructor; assumption. }
  exists (concat arrs), (concat (map snd dl)),
    (log_events (EvEval :: map (batch_event args model fp16_scaler) dl) w).
  split; [exact (get_embeddings_ok args model fp16_scaler dl arrs w Hok)|].
  split; [reflexivity|]. split; [reflexivity|].
  split; [now rewrite (concat_length_eq _ _ Hrows), (concat_length_eq _ _ Hlabs)|].
  split; [now rewrite (concat_length_eq _ _ Hrows), total_examples_concat|].
  intros i x Hi.
  destruct (concat_lookup_inv _ _ _ Hi) as (k & xs & j & Hk & Hj & Ei).
  destruct (lookup_map_inv _ _ _ _ Hk) as (b & Hb & ->).
  destruct (Forall2_lookup_l _ _ _ _ _ Henc Hb) as (a & Ha & _ & Hla).
  assert (Hjlt : j < length (fst b)) by (eapply lookup_lt_Some; exact Hj).
  assert (Hlb : length (snd b) = length (fst b)).
  { rewrite Forall_forall in Hlab. apply Hlab.
    eapply list_elem_of_lookup_2. exact Hb. }
  destruct (lookup_lt_is_Some_2 a j) as [r Hr]; [lia|].
  destruct (lookup_lt_is_Some_2 (snd b) j) as [l Hl]; [lia|].
  exists k, b, a, j, r, l.
  split; [exact Hb|]. split; [exact Ha|].
  split; [now rewrite total_examples_concat, <- take_map|].
  split; [exact Hj|]. split; [exact Hr|]. split; [exact Hl|].
  subst i. split.
  - rewrite <- (concat_take_length_eq _ _ k Hrows), <- Hr.
    apply concat_lookup_offset; [exact Ha | lia].
  - rewrite <- (concat_take_length_eq _ _ k Hlabs), <- Hl.
    apply concat_lookup_offset; [now apply lookup_map_Some | lia].
Qed.

End ExtractorSpec.

(** ** What a computation may do to the world *)

Lemma bind_run {A B} (c : M A) (k : A -> M B) w :
  bind c k w =
  match c w with
  | (Ok a, w1) => k a w1
  | (Raise e, w1) => (Raise e, w1)
  end.
Proof. reflexivity. Qed.

Section Effects.

Context {A B : Type} (P : Event -> Prop).

Lemma emits_ret (a : A) : emits P (ret a).
Proof. intros w. exists []. cbn. now rewrite app_nil_r. Qed.

Lemma emits_raise e : emits P (raise e : M A).
Proof. intros w. exists []. cbn. now rewrite app_nil_r. Qed.

Lemma emits_lift (r : result A) : emits P (lift r).
Proof. intros w. exists []. cbn. now rewrite app_nil_r. Qed.

Lemma emits_emit ev : P ev -> emits P (emit ev).
Proof. intros H w. exists [ev]. cbn. split; [reflexivity | now constructor]. Qed.

Lemma emits_call ev (r : result A) : P ev -> emits P (call ev r).
Proof. intros H w. exists [ev]. cbn. split; [reflexivity | now constructor]. Qed.

Lemma emits_bind (c : M A) (k : A -> M B) :
  emits P c -> (forall a, emits P (k a)) -> emits P (bind c k).
Proof.
  intros Hc Hk w. rewrite bind_run.
  destruct (Hc w) as (evs1 & E1 & F1).
  destruct (c w) as [[a|e] w1]; cbn in E1.
  - destruct (Hk a w1) as (evs2 & E2 & F2).
    exists (evs1 ++ evs2). rewrite E2, E1, app_assoc.
    split; [reflexivity | now apply Forall_app].
  - exists evs1. now split.
Qed.

Lemma keeps_files_ret (a : A) : keeps_files (ret a).
Proof. now intros w. Qed.

Lemma keeps_files_raise e : keeps_files (raise e : M A).
Proof. now intros w. Qed.

Lemma keeps_files_lift (r : result A) : keeps_files (lift r).
Proof. now intros w. Qed.

Lemma keeps_files_emit ev : keeps_files (emit ev).
Proof. now intros w. Qed.

Lemma keeps_files_call ev (r : result A) : keeps_files (call ev r).
Proof. now intros w. Qed.

Lemma keeps_files_bind (c : M A) (k : A -> M B) :
  keeps_files c -> (forall a, keeps_files (k a)) -> keeps_files (bind c k).
Proof.
  intros Hc Hk w. rewrite bind_run. specialize (Hc w).
  destruct (c w) as [[a|e] w1]; cbn in Hc.
  - now rewrite Hk.
  - exact Hc.
Qed.

End Effects.

Create HintDb effects.
#[local] Hint Resolve emits_ret emits_raise emits_lift emits_emit emits_call
  keeps_files_ret keeps_files_raise keeps_files_lift keeps_files_emit
  keeps_files_call : effects.

(** Breaks a computation into its steps, leaving the conditions on the
    calls it makes. *)
Ltac effects_steps :=
  repeat first
    [ apply emits_bind; [|intros ?]
    | apply keeps_files_bind; [|intros ?]
    | solve [auto with effects]
    | match goal with
      | |- context [match ?x with (_, _) => _ end] => destruct x
      | |- context [if ?b then _ else _] => destruct b
      | |- context [match ?x with Some _ => _ | None => _ end] => destruct x
      end ].

Section EvalLinear.

Context `{Ext : External}.

Lemma keeps_files_loop args model fp16_scaler dl embs targets :
  keeps_files (get_embeddings_loop args model fp16_scaler dl embs targets).
Proof.
  revert embs targets. induction dl as [|[data target] dl IH];
    intros embs targets; cbn [get_embeddings_loop]; unfold encode.
  - auto with effects.
  - repeat (apply keeps_files_bind; [auto with effects | intros ?]).
    apply IH.
Qed.

Lemma keeps_files_get_embeddings args model dl fp16_scaler :
  keeps_files (get_embeddings args model dl fp16_scaler).
Proof.
  unfold get_embeddings. apply keeps_files_bind; [auto with effects|].
  intros _. apply keeps_files_loop.
Qed.

Lemma emits_loop P args model fp16_scaler dl embs targets :
  (forall b, P (batch_event args model fp16_scaler b)) ->
  emits P (get_embeddings_loop args model fp16_scaler dl embs targets).
Proof.
  intros HP. revert embs targets. induction dl as [|[data target] dl IH];
    intros embs targets; cbn [get_embeddings_loop]; unfold encode.
  - auto with effects.
  - apply emits_bind; [apply emits_call; apply (HP (data, target))|].
    intros ?. repeat (apply emits_bind; [auto with effects | intros ?]).
    apply IH.
Qed.

Lemma emits_get_embeddings P args model dl fp16_scaler :
  P EvEval ->
  (forall b, P (batch_event args model fp16_scaler b)) ->
  emits P (get_embeddings args model dl fp16_scaler).
Proof.
  intros He HP. unfold get_embeddings.
  apply emits_bind; [auto with effects|]. intros _. now apply emits_loop.
Qed.

End EvalLinear.

Section EvalLinearRuns.

Context `{Ext : External}.

Lemma eval_linear_eq args model tr va te use_fp16 w :
  eval_linear args model tr va te use_fp16 w =
  eval_linear_from args model tr va te (scaler_of use_fp16)
    (scaler_world use_fp16 w).
Proof. now destruct use_fp16. Qed.

Lemma autocast_scaler_of use_fp16 :
  autocast_enabled (scaler_of use_fp16) = use_fp16.
Proof. now destruct use_fp16. Qed.

Lemma eval_linear_from_ok args model tr va te fp16_scaler w
    Xtr ytr Xv yv Xte yte w1 w2 w3 :
  get_embeddings args model tr fp16_scaler w = (Ok (Xtr, ytr), w1) ->
  get_embeddings args model va fp16_scaler w1 = (Ok (Xv, yv), w2) ->
  get_embeddings args model te fp16_scaler w2 = (Ok (Xte, yte), w3) ->
  eval_linear_from args model tr va te fp16_scaler w =
  (Ok (results_of Xtr ytr Xv yv Xte yte), log_events clf_events w3).
Proof.
  intros H1 H2 H3. unfold eval_linear_from.
  rewrite (bind_ok _ _ _ _ _ H1), (bind_ok _ _ _ _ _ H2),
    (bind_ok _ _ _ _ _ H3).
  rewrite !bind_emit, !log_events_app. reflexivity.
Qed.

Lemma eval_linear_from_ok_inv args model tr va te fp16_scaler w res w' :
  eval_linear_from args model tr va te fp16_scaler w = (Ok res, w') ->
  exists Xtr ytr Xv yv Xte yte w1 w2 w3,
    get_embeddings args model tr fp16_scaler w = (Ok (Xtr, ytr), w1) /\
    get_embeddings args model va fp16_scaler w1 = (Ok (Xv, yv), w2) /\
    get_embeddings args model te fp16_scaler w2 = (Ok (Xte, yte), w3) /\
    res = results_of Xtr ytr Xv yv Xte yte /\
    w' = log_events clf_events w3.
Proof.
  intros H. unfold eval_linear_from in H.
  apply bind_ok_inv in H as ([Xtr ytr] & w1 & H1 & H).
  apply bind_ok_inv in H as ([Xv yv] & w2 & H2 & H).
  apply bind_ok_inv in H as ([Xte yte] & w3 & H3 & H).
  rewrite !bind_emit, !log_events_app in H.
  exists Xtr, ytr, Xv, yv, Xte, yte, w1, w2, w3.
  injection H as <- <-. now repeat split.
Qed.

End EvalLinearRuns.

Lemma bind_assoc {A B C} (c : M A) (f : A -> M B) (g : B -> M C) w :
  bind (bind c f) g w = bind c (fun a => bind (f a) g) w.
Proof. rewrite !bind_run. now destruct (c w) as [[a|e] w1]. Qed.

Lemma bind_ext {A B} (c : M A) (k k' : A -> M B) w :
  (forall a w1, k a w1 = k' a w1) -> bind c k w = bind c k' w.
Proof. intros H. rewrite !bind_run. now destruct (c w) as [[a|e] w1]. Qed.

(** ** The driver *)

Section Driver.

Context `{Ext : External}.

Lemma append_empty_r (s : string) : s +:+ "" = s.
Proof.
  induction s as [|c s IH]; [reflexivity|].
  change (String c (s +:+ "") = String c s). now rewrite IH.
Qed.

Lemma format_log_template (a b c d : string) :
  PyStr.format log_template [a; b; c; d] =
  Some ("epoch," +:+ a +:+ ",linear_score," +:+ b +:+
        ",linear_score_5_mean," +:+ c +:+ ",linear_score_5_std," +:+ d).
Proof.
  cbv [PyStr.format log_template option_map].
  rewrite append_empty_r. reflexivity.
Qed.

Lemma main_split args w :
  main args w =
  bind (main_line args) (logger_info (log_path args)) (opened args w).
Proof.
  unfold main. rewrite bind_emit.
  change (bind (open_append (log_path args)) ?k ?w0) with (k tt (opened args w)).
  cbv beta. generalize (opened args w). intros w0. unfold main_line.
  rewrite bind_assoc. apply bind_ext. intros loaders w1.
  rewrite bind_assoc. apply bind_ext. intros [[tr va] te] w2.
  rewrite bind_assoc. apply bind_ext. intros model w3.
  rewrite bind_assoc. apply bind_ext. intros _ w4.
  rewrite bind_assoc. apply bind_ext. intros _ w5.
  rewrite bind_assoc. apply bind_ext. intros scores w6. cbv zeta.
  rewrite bind_assoc. apply bind_ext. intros mean w7.
  rewrite bind_assoc. apply bind_ext. intros std w8.
  reflexivity.
Qed.

End Driver.

#[local] Hint Constructors script_event : effects.

Section DriverEffects.

Context `{Ext : External}.

Lemma keeps_files_get_data args : keeps_files (get_data args).
Proof. unfold get_data, get_fsd50k. effects_steps. Qed.

Lemma keeps_files_load_model args : keeps_files (load_model args).
Proof. unfold load_model. effects_steps. Qed.

Lemma keeps_files_eval_linear args model tr va te use_fp16 :
  keeps_files (eval_linear args model tr va te use_fp16).
Proof.
  unfold eval_linear.
  apply keeps_files_bind; [effects_steps | intros fp16_scaler].
  apply keeps_files_bind; [apply keeps_files_get_embeddings | intros [? ?]].
  apply keeps_files_bind; [apply keeps_files_get_embeddings | intros [? ?]].
  apply keeps_files_bind; [apply keeps_files_get_embeddings | intros [? ?]].
  effects_steps.
Qed.

Lemma keeps_files_index {A} (xs : list A) i : keeps_files (index xs i).
Proof. unfold index. destruct (xs !! i); auto with effects. Qed.

Lemma keeps_files_main_line args : keeps_files (main_line args).
Proof.
  unfold main_line.
  apply keeps_files_bind; [apply keeps_files_get_data | intros loaders].
  apply keeps_files_bind; [destruct loaders; auto with effects|].
  intros [[tr va] te].
  apply keeps_files_bind; [apply keeps_files_load_model | intros model].
  do 2 (apply keeps_files_bind; [auto with effects | intros _]).
  apply keeps_files_bind; [apply keeps_files_eval_linear | intros scores].
  cbv zeta.
  do 2 (apply keeps_files_bind; [apply keeps_files_index | intros ?]).
  destruct (PyStr.format _ _); auto with effects.
Qed.

Lemma emits_get_data args : emits (script_event args) (get_data args).
Proof.
  unfold get_data, get_fsd50k.
  destruct (String.eqb (dataset args) "fsd50k") eqn:Hd; [|auto with effects].
  apply String.eqb_eq in Hd.
  assert (forall split, split ∈ ["train"; "val"; "test"] ->
                        script_event args (EvDataLoader split)) as Hs
    by (intros; now constructor).
  apply emits_bind; [|auto with effects].
  repeat (apply emits_bind; [apply emits_call, Hs; set_solver | intros ?]).
  auto with effects.
Qed.

Lemma emits_load_model args : emits (script_event args) (load_model args).
Proof.
  unfold load_model. apply emits_bind; [auto with effects | intros _].
  destruct (String.eqb (model_file_path args) "") eqn:Hp; cbn [negb];
    [auto with effects|].
  apply String.eqb_neq in Hp.
  apply emits_bind; [auto with effects | intros ?].
  apply emits_bind; [auto with effects | intros ?].
  auto with effects.
Qed.

Lemma script_batch_event args model b :
  script_event args
    (batch_event args model (scaler_of (use_fp16_eval args)) b).
Proof.
  unfold batch_event, encode_call. rewrite autocast_scaler_of.
  destruct (PyStr.contains "vit" (model_type args)) eqn:Hv; cbn [fst];
    auto with effects.
Qed.

Lemma emits_eval_linear_from P args model tr va te fp16_scaler :
  P EvEval ->
  (forall b, P (batch_event args model fp16_scaler b)) ->
  Forall P clf_events ->
  emits P (eval_linear_from args model tr va te fp16_scaler).
Proof.
  intros He Hb Hc. unfold eval_linear_from.
  apply emits_bind; [now apply emits_get_embeddings | intros [? ?]].
  apply emits_bind; [now apply emits_get_embeddings | intros [? ?]].
  apply emits_bind; [now apply emits_get_embeddings | intros [? ?]].
  unfold clf_events in Hc. rewrite !Forall_cons in Hc.
  destruct Hc as (? & ? & ? & ? & _).
  effects_steps.
Qed.

Lemma emits_eval_linear args model tr va te :
  emits (script_event args)
        (eval_linear args model tr va te (use_fp16_eval args)).
Proof.
  intros w. rewrite eval_linear_eq.
  destruct (emits_eval_linear_from (script_event args) args model tr va te
              (scaler_of (use_fp16_eval args))) with
    (w := scaler_world (use_fp16_eval args) w) as (evs & E & F).
  - constructor.
  - apply script_batch_event.
  - unfold clf_events. repeat constructor.
  - rewrite E. unfold scaler_world.
    destruct (use_fp16_eval args) eqn:Hf.
    + exists (EvGradScaler :: evs). cbn. rewrite <- app_assoc. split; [reflexivity|].
      constructor; [now constructor | exact F].
    + exists evs. now split.
Qed.

Lemma emits_index {A} P (xs : list A) i : emits P (index xs i).
Proof. unfold index. destruct (xs !! i); auto with effects. Qed.

Lemma emits_main_line args : emits (script_event args) (main_line args).
Proof.
  unfold main_line.
  apply emits_bind; [apply emits_get_data | intros loaders].
  apply emits_bind; [destruct loaders; auto with effects|].
  intros [[tr va] te].
  apply emits_bind; [apply emits_load_model | intros model].
  do 2 (apply emits_bind; [auto with effects | intros _]).
  apply emits_bind; [apply emits_eval_linear | intros scores].
  cbv zeta.
  do 2 (apply emits_bind; [apply emits_index | intros ?]).
  destruct (PyStr.format _ _); auto with effects.
Qed.

(** Every call of every run, finished or not, is one the script can
    make. *)
Lemma emits_main args : emits (script_event args) (main args).
Proof.
  intros w. rewrite main_split, bind_run.
  destruct (emits_main_line args (opened args w)) as (evs & E & F).
  destruct (main_line args (opened args w)) as [[line|e] w1]; cbn in E.
  - exists ([EvMakedirs (log_dir args); EvFileHandler (log_path args)] ++
            evs ++ [EvLogInfo (log_path args) line]).
    cbn. rewrite E. cbn. rewrite <- !app_assoc. split; [reflexivity|].
    repeat constructor. apply Forall_app. split; [exact F|].
    repeat constructor.
  - exists ([EvMakedirs (log_dir args); EvFileHandler (log_path args)] ++ evs).
    cbn. rewrite E. cbn. rewrite <- !app_assoc. split; [reflexivity|].
    repeat constructor. exact F.
Qed.

End DriverEffects.

Section DriverRuns.

Context `{Ext : External}.

Lemma get_data_unsupported args w :
  dataset args <> "fsd50k" -> get_data args w = (Ok None, w).
Proof.
  intros Hd. unfold get_data. apply String.eqb_neq in Hd. now rewrite Hd.
Qed.

Lemma get_data_fsd50k args w tr va te :
  dataset args = "fsd50k" ->
  fsd50k_loader args "train" = Ok tr ->
  fsd50k_loader args "val" = Ok va ->
  fsd50k_loader args "test" = Ok te ->
  get_data args w = (Ok (Some (tr, va, te)), log_events loader_events w).
Proof.
  intros Hd H1 H2 H3. unfold get_data, get_fsd50k.
  apply String.eqb_eq in Hd. rewrite Hd.
  rewrite bind_assoc, bind_call, H1, bind_assoc, bind_call, H2,
    bind_assoc, bind_call, H3.
  rewrite !bind_ret, !log_events_app. reflexivity.
Qed.

Lemma get_data_some_inv args w t w1 :
  get_data args w = (Ok (Some t), w1) ->
  dataset args = "fsd50k" /\
  fsd50k_loader args "train" = Ok (fst (fst t)) /\
  fsd50k_loader args "val" = Ok (snd (fst t)) /\
  fsd50k_loader args "test" = Ok (snd t) /\
  w1 = log_events loader_events w.
Proof.
  unfold get_data, get_fsd50k.
  destruct (String.eqb (dataset args) "fsd50k") eqn:Hd; [|discriminate].
  apply String.eqb_eq in Hd. intros H.
  rewrite bind_assoc, bind_call in H.
  destruct (fsd50k_loader args "train") as [tr|]; [|discriminate H].
  rewrite bind_assoc, bind_call in H.
  destruct (fsd50k_loader args "val") as [va|]; [|discriminate H].
  rewrite bind_assoc, bind_call in H.
  destruct (fsd50k_loader args "test") as [te|]; [|discriminate H].
  rewrite !bind_ret, !log_events_app in H. injection H as <- <-.
  now repeat split.
Qed.

(** A run that gets as far as the log line went through every stage. *)
Lemma main_line_ok_inv args w line w' :
  main_line args w = (Ok line, w') ->
  exists tr va te model w2 res mean std,
    get_data args w = (Ok (Some (tr, va, te)), log_events loader_events w) /\
    fsd50k_loader args "train" = Ok tr /\
    load_model args (log_events loader_events w) = (Ok model, w2) /\
    eval_linear args model tr va te (use_fp16_eval args)
      (log_events [EvCuda; EvEval] w2) = (Ok res, w') /\
    score_5 res !! 0 = Some mean /\
    score_5 res !! 1 = Some std /\
    line = log_line (model_epoch args) (score_all res) mean std.
Proof.
  intros H. unfold main_line in H.
  apply bind_ok_inv in H as (loaders & w1 & Hd & H).
  apply bind_ok_inv in H as ([[tr va] te] & w1' & Hu & H).
  destruct loaders as [t|]; [|discriminate Hu].
  injection Hu as -> ->.
  destruct (get_data_some_inv _ _ _ _ Hd) as (_ & Htr & _ & _ & ->).
  apply bind_ok_inv in H as (model & w2 & Hm & H).
  rewrite !bind_emit, log_events_app in H.
  apply bind_ok_inv in H as (res & w3 & He & H). cbv zeta in H.
  apply bind_ok_inv in H as (mean & w4 & Hmean & H).
  apply bind_ok_inv in H as (std & w5 & Hstd & H).
  unfold index in Hmean, Hstd.
  destruct (score_5 res !! 0) as [m|] eqn:E0; [|discriminate Hmean].
  destruct (score_5 res !! 1) as [s|] eqn:E1; [|discriminate Hstd].
  injection Hmean as -> ->. injection Hstd as -> ->.
  rewrite format_log_template in H. injection H as <- <-.
  exists tr, va, te, model, w2, res, mean, std.
  cbn [fst snd] in Htr. now repeat split.
Qed.

Lemma main_line_ok args w tr va te model w2 res w3 mean std :
  get_data args w = (Ok (Some (tr, va, te)), log_events loader_events w) ->
  load_model args (log_events loader_events w) = (Ok model, w2) ->
  eval_linear args model tr va te (use_fp16_eval args)
    (log_events [EvCuda; EvEval] w2) = (Ok res, w3) ->
  score_5 res !! 0 = Some mean ->
  score_5 res !! 1 = Some std ->
  main_line args w =
  (Ok (log_line (model_epoch args) (score_all res) mean std), w3).
Proof.
  intros Hd Hm He H0 H1. unfold main_line.
  rewrite (bind_ok _ _ _ _ _ Hd), bind_ret, (bind_ok _ _ _ _ _ Hm).
  rewrite !bind_emit, log_events_app, (bind_ok _ _ _ _ _ He). cbv zeta.
  unfold index. rewrite H0, bind_ret, H1, bind_ret, format_log_template.
  reflexivity.
Qed.

(** The log file after [open_append] holds what it held before. *)
Lemma opened_files args w :
  files (opened args w) =
  <[log_path args := default [] (files w !! log_path args)]> (files w).
Proof.
  unfold opened, open_append. cbn [snd files log_events].
  destruct (files w !! log_path args) as [old|] eqn:E; cbn [default].
  - symmetry. now apply insert_id.
  - reflexivity.
Qed.

Lemma opened_trace args w :
  trace (opened args w) =
  trace w ++ [EvMakedirs (log_dir args); EvFileHandler (log_path args)].
Proof.
  unfold opened, open_append. cbn [snd trace log_events].
  now rewrite <- app_assoc.
Qed.

(** When every stage goes through, the run reaches its end. *)
Lemma main_completes args w tr va te model w2 res w3 mean std :
  get_data args (opened args w) =
    (Ok (Some (tr, va, te)), log_events loader_events (opened args w)) ->
  load_model args (log_events loader_events (opened args w)) = (Ok model, w2) ->
  eval_linear args model tr va te (use_fp16_eval args)
    (log_events [EvCuda; EvEval] w2) = (Ok res, w3) ->
  score_5 res !! 0 = Some mean ->
  score_5 res !! 1 = Some std ->
  main args w =
  logger_info (log_path args)
    (log_line (model_epoch args) (score_all res) mean std) w3.
Proof.
  intros Hd Hm He H0 H1. rewrite main_split.
  now rewrite (bind_ok _ _ _ _ _ (main_line_ok _ _ _ _ _ _ _ _ _ _ _
                                    Hd Hm He H0 H1)).
Qed.

(** A finished run has added its line, and only it, to the log file. *)
Lemma main_ok_files args w w' :
  main args w = (Ok tt, w') ->
  exists line w1,
    main_line args (opened args w) = (Ok line, w1) /\
    files w' =
    <[log_path args := default [] (files w !! log_path args) ++ [line]]>
      (files w).
Proof.
  rewrite main_split. intros H.
  apply bind_ok_inv in H as (line & w1 & Hl & H).
  exists line, w1. split; [exact Hl|].
  pose proof (keeps_files_main_line args (opened args w)) as Hf.
  rewrite Hl in Hf. cbn [snd] in Hf.
  unfold logger_info in H. injection H as <-. cbn [files].
  rewrite Hf, opened_files, lookup_insert_eq, insert_insert_eq. reflexivity.
Qed.

(** A run that stops on an exception has added nothing to the log
    file. *)
Lemma main_abort_files args w e w' :
  main args w = (Raise e, w') ->
  files w' =
  <[log_path args := default [] (files w !! log_path args)]> (files w).
Proof.
  rewrite main_split, bind_run. intros H.
  pose proof (keeps_files_main_line args (opened args w)) as Hf.
  destruct (main_line args (opened args w)) as [[line|e'] w1]; cbn [snd] in Hf.
  - discriminate H.
  - injection H as _ <-. now rewrite Hf, opened_files.
Qed.

End DriverRuns.

(** ** Paths *)

Lemma append_cons c (s t : string) : String c s +:+ t = String c (s +:+ t).
Proof. reflexivity. Qed.

Lemma append_assoc (a b c : string) : (a +:+ b) +:+ c = a +:+ (b +:+ c).
Proof.
  induction a as [|x a IH]; [reflexivity|].
  now rewrite !append_cons, IH.
Qed.

Lemma endswith_refl p : PyStr.endswith p p = true.
Proof. destruct p; cbn; [reflexivity|]. now rewrite Ascii.eqb_refl, String.eqb_refl. Qed.

Lemma endswith_append_r p s t :
  PyStr.endswith p t = true -> PyStr.endswith p (s +:+ t) = true.
Proof.
  intros H. induction s as [|c s IH]; [exact H|].
  rewrite append_cons. cbn [PyStr.endswith]. rewrite IH. apply orb_true_r.
Qed.

Lemma log_path_eq args :
  log_path args =
  "logs/linear_eval/" +:+ dataset args +:+ "/" +:+ model_name args +:+ "/log.csv".
Proof.
  unfold log_path, PyStr.path_join.
  change (PyStr.startswith "/" "log.csv") with false. cbv iota.
  assert (PyStr.endswith "/" (log_dir args) = true) as ->.
  { unfold log_dir. do 3 apply endswith_append_r.
    apply endswith_append_r, endswith_refl. }
  rewrite orb_true_r. unfold log_dir. now rewrite !append_assoc.
Qed.

(** ** The driver's contract *)

Section DriverSpec.

Context `{Ext : External}.

Lemma load_model_mismatch args w raw d :
  strict_contract ->
  model_file_path args <> "" ->
  torch_load (model_file_path args) = Ok raw ->
  unwrap_model raw = Ok d ->
  keys_match (PyDict.keys (clean_state_dict d))
             (state_dict_keys (fresh_encoder args)) = false ->
  load_model args w =
  (Raise RuntimeError,
   log_events [EvModelWrapper; EvTorchLoad (model_file_path args);
               EvLoadStateDict (PyDict.keys (clean_state_dict d)) true] w).
Proof.
  intros Hs Hp Hl Hu Hk.
  rewrite (load_model_with_path args w raw d Hp Hl Hu).
  now rewrite (Hs _ _ Hk).
Qed.

(** C3.  With a model file path, the cleaned mapping is handed to
    [load_state_dict] with [strict=True]; when its keys are not the
    encoder's parameter names the load raises, [load_model] returns no
    encoder, and the run stops there: nothing is evaluated and no line
    reaches the log. *)
Theorem strict_load_mismatch_aborts args w raw d :
  strict_contract ->
  model_file_path args <> "" ->
  torch_load (model_file_path args) = Ok raw ->
  unwrap_model raw = Ok d ->
  keys_match (PyDict.keys (clean_state_dict d))
             (state_dict_keys (fresh_encoder args)) = false ->
  (forall w0,
      load_model args w0 =
      (Raise RuntimeError,
       log_events [EvModelWrapper; EvTorchLoad (model_file_path args);
                   EvLoadStateDict (PyDict.keys (clean_state_dict d)) true] w0)) /\
  (exists e w',
      main args w = (Raise e, w') /\
      files w' =
      <[log_path args := default [] (files w !! log_path args)]> (files w)) /\
  (forall tr va te,
      get_data args (opened args w) =
        (Ok (Some (tr, va, te)), log_events loader_events (opened args w)) ->
      main args w =
      (Raise RuntimeError,
       log_events (loader_events ++
                   [EvModelWrapper; EvTorchLoad (model_file_path args);
                    EvLoadStateDict (PyDict.keys (clean_state_dict d)) true])
                  (opened args w))).
Proof.
  intros Hs Hp Hl Hu Hk.
  assert (Hload : forall w0,
             load_model args w0 =
             (Raise RuntimeError,
              log_events [EvModelWrapper; EvTorchLoad (model_file_path args);
                          EvLoadStateDict (PyDict.keys (clean_state_dict d)) true]
                         w0))
    by (intros w0; now apply load_model_mismatch with (raw := raw)).
  split; [exact Hload|]. split.
  - destruct (main args w) as [[[]|e] w'] eqn:Hm.
    + exfalso. destruct (main_ok_files _ _ _ Hm) as (line & w1 & Hline & _).
      destruct (main_line_ok_inv _ _ _ _ Hline)
        as (tr & va & te & model & w2 & res & mean & std & _ & _ & Hlm & _).
      rewrite Hload in Hlm. discriminate Hlm.
    + exists e, w'. split; [reflexivity|]. now apply main_abort_files with (e := e).
  - intros tr va te Hd. rewrite main_split, bind_run.
    unfold main_line. rewrite (bind_ok _ _ _ _ _ Hd), bind_ret.
    rewrite (bind_raise _ _ _ _ _ (Hload _)), log_events_app. reflexivity.
Qed.

(** C9.  For a dataset other than 'fsd50k', [get_data] returns [None]
    without building any loader; the unpacking in the driver raises
    [TypeError], and the run has only made the log directory and opened
    the log file: the model is not built and no encoder call is made.
    For 'fsd50k' the three loaders are returned. *)
Theorem unsupported_dataset_aborts args w :
  (dataset args <> "fsd50k" ->
   get_data args w = (Ok None, w) /\
   main args w = (Raise TypeError, opened args w) /\
   trace (opened args w) =
   trace w ++ [EvMakedirs (log_dir args); EvFileHandler (log_path args)] /\
   files (opened args w) =
   <[log_path args := default [] (files w !! log_path args)]> (files w)) /\
  (dataset args = "fsd50k" ->
   forall tr va te,
     fsd50k_loader args "train" = Ok tr ->
     fsd50k_loader args "val" = Ok va ->
     fsd50k_loader args "test" = Ok te ->
     get_data args w = (Ok (Some (tr, va, te)), log_events loader_events w)).
Proof.
  split.
  - intros Hd. split; [now apply get_data_unsupported|].
    split; [|split; [apply opened_trace | apply opened_files]].
    rewrite main_split, bind_run. unfold main_line.
    rewrite (bind_ok _ _ _ _ _ (get_data_unsupported _ _ Hd)).
    reflexivity.
  - intros Hd tr va te. now apply get_data_fsd50k.
Qed.

End DriverSpec.

Lemma emits_run {A} P (c : M A) w r w1 :
  emits P c -> c w = (r, w1) ->
  exists evs, trace w1 = trace w ++ evs /\ Forall P evs.
Proof. intros Hc E. specialize (Hc w). now rewrite E in Hc. Qed.

Lemma script_event_classifier args e :
  script_event args e -> classifiers_use clf_config e.
Proof. now destruct 1. Qed.

Lemma script_event_low_shot args e :
  script_event args e -> low_shot_uses 5 e.
Proof. now destruct 1. Qed.

Section EvaluationSpec.

Context `{Ext : External}.

(** C7.  Once the three splits are embedded, [eval_linear] builds one
    classifier, with one hidden layer of 1024 units, at most 500
    iterations, early stopping and a patience of 20; fits it on the train
    embeddings with the val embeddings passed for early stopping; and
    takes its score on the test embeddings.  No run ever builds a
    classifier with another configuration. *)
Theorem eval_linear_classifier args model tr va te use_fp16 w
    Xtr ytr Xv yv Xte yte w1 w2 w3 :
  get_embeddings args model tr (scaler_of use_fp16) (scaler_world use_fp16 w)
    = (Ok (Xtr, ytr), w1) ->
  get_embeddings args model va (scaler_of use_fp16) w1 = (Ok (Xv, yv), w2) ->
  get_embeddings args model te (scaler_of use_fp16) w2 = (Ok (Xte, yte), w3) ->
  let cfg := {| hidden_layer_sizes := [1024%Z]; max_iter := 500;
                early_stopping := true; n_iter_no_change := 20;
                debug := true |} in
  exists res,
    eval_linear args model tr va te use_fp16 w =
    (Ok res,
     log_events [EvClfNew cfg; EvClfFit true; EvClfScore; EvLowShot 5] w3) /\
    score_all res =
    clf_score (clf_fit cfg Xtr ytr (Some Xv) (Some yv)) Xte yte /\
    forall args0 w0, exists evs,
      trace (snd (main args0 w0)) = trace w0 ++ evs /\
      Forall (classifiers_use cfg) evs.
Proof.
  intros H1 H2 H3 cfg. exists (results_of Xtr ytr Xv yv Xte yte).
  split; [|split; [reflexivity|]].
  - rewrite eval_linear_eq. now apply eval_linear_from_ok with (w1 := w1) (w2 := w2).
  - intros args0 w0. destruct (emits_main args0 w0) as (evs & E & F).
    exists evs. split; [exact E|].
    eapply Forall_impl; [exact F|]. apply script_event_classifier.
Qed.

(** The calls of a run that reaches the log line end with the classifier
    and low-shot calls. *)
Lemma main_line_trace args w line w1 :
  main_line args w = (Ok line, w1) ->
  exists evs,
    trace w1 = trace w ++ evs ++ clf_events /\ Forall (script_event args) evs.
Proof.
  intros H.
  destruct (main_line_ok_inv _ _ _ _ H)
    as (tr & va & te & model & w2 & res & mean & std &
        _ & _ & Hlm & He & _).
  destruct (emits_run _ _ _ _ _ (emits_load_model args) Hlm) as (em & Em & Fm).
  rewrite eval_linear_eq in He.
  destruct (eval_linear_from_ok_inv _ _ _ _ _ _ _ _ _ He)
    as (Xtr & ytr & Xv & yv & Xte & yte & u1 & u2 & u3 &
        G1 & G2 & G3 & _ & ->).
  assert (Hg : forall dl, emits (script_event args)
                 (get_embeddings args model dl (scaler_of (use_fp16_eval args)))).
  { intros dl. apply emits_get_embeddings; [constructor|].
    apply script_batch_event. }
  destruct (emits_run _ _ _ _ _ (Hg tr) G1) as (e1 & E1 & F1).
  destruct (emits_run _ _ _ _ _ (Hg va) G2) as (e2 & E2 & F2).
  destruct (emits_run _ _ _ _ _ (Hg te) G3) as (e3 & E3 & F3).
  assert (Hs : exists es,
             trace (scaler_world (use_fp16_eval args)
                      (log_events [EvCuda; EvEval] w2)) =
             trace w2 ++ [EvCuda; EvEval] ++ es /\
             Forall (script_event args) es).
  { unfold scaler_world. destruct (use_fp16_eval args) eqn:Hf.
    - exists [EvGradScaler]. cbn. rewrite <- app_assoc.
      split; [reflexivity|]. repeat constructor. exact Hf.
    - exists []. cbn. split; [reflexivity | constructor]. }
  destruct Hs as (es & Es & Fs).
  exists (loader_events ++ em ++ [EvCuda; EvEval] ++ es ++ e1 ++ e2 ++ e3).
  split.
  - cbn [log_events trace]. rewrite E3, E2, E1, Es, Em. cbn [log_events trace].
    now rewrite <- !app_assoc.
  - (* the loaders were built, so the dataset is fsd50k *)
    destruct (main_line_ok_inv _ _ _ _ H)
      as (tr' & va' & te' & _ & _ & _ & _ & _ & Hd & _).
    destruct (get_data_some_inv _ _ _ _ Hd) as (Hds & _).
    repeat (apply Forall_app; split); try assumption.
    + unfold loader_events.
      repeat (constructor; [constructor; [exact Hds | set_solver]|]).
      constructor.
    + repeat constructor.
Qed.

(** C8.  In a run that reaches its end, the low-shot routine was called
    on the embeddings of the train loader with [n = 5]; its result is
    read at positions 0 and 1, and these two values are the mean and the
    standard deviation of the line written to the log.  The call is the
    last one before the line is written, and no run calls the routine
    with another [n]. *)
Theorem low_shot_five_per_class args w w' :
  main args w = (Ok tt, w') ->
  (exists model tr va te fp16_scaler w0 w1 w2 w3
          Xtr ytr Xv yv Xte yte mean std,
      fsd50k_loader args "train" = Ok tr /\
      get_embeddings args model tr fp16_scaler w0 = (Ok (Xtr, ytr), w1) /\
      get_embeddings args model va fp16_scaler w1 = (Ok (Xv, yv), w2) /\
      get_embeddings args model te fp16_scaler w2 = (Ok (Xte, yte), w3) /\
      eval_linear_low_shot Xtr ytr Xv yv Xte yte 5 !! 0 = Some mean /\
      eval_linear_low_shot Xtr ytr Xv yv Xte yte 5 !! 1 = Some std /\
      files w' !! log_path args =
      Some (default [] (files w !! log_path args) ++
            [log_line (model_epoch args)
               (clf_score (clf_fit clf_config Xtr ytr (Some Xv) (Some yv))
                          Xte yte)
               mean std]) /\
      exists evs,
        trace w' =
        trace w ++ evs ++
        [EvLowShot 5;
         EvLogInfo (log_path args)
           (log_line (model_epoch args)
              (clf_score (clf_fit clf_config Xtr ytr (Some Xv) (Some yv))
                         Xte yte)
              mean std)] /\
        Forall (low_shot_uses 5) evs) /\
  (forall args0 w0, exists evs,
      trace (snd (main args0 w0)) = trace w0 ++ evs /\
      Forall (low_shot_uses 5) evs).
Proof.
  intros Hm. split.
  - destruct (main_ok_files _ _ _ Hm) as (line & u & Hline & Hfiles).
    destruct (main_line_trace _ _ _ _ Hline) as (evs & Et & Ft).
    destruct (main_line_ok_inv _ _ _ _ Hline)
      as (tr & va & te & model & u2 & res & mean & std &
          _ & Htr & _ & He & H0 & H1 & ->).
    rewrite eval_linear_eq in He.
    destruct (eval_linear_from_ok_inv _ _ _ _ _ _ _ _ _ He)
      as (Xtr & ytr & Xv & yv & Xte & yte & u1 & v2 & u3 &
          G1 & G2 & G3 & -> & ->).
    exists model, tr, va, te, (scaler_of (use_fp16_eval args)),
      (scaler_world (use_fp16_eval args) (log_events [EvCuda; EvEval] u2)),
      u1, v2, u3, Xtr, ytr, Xv, yv, Xte, yte, mean, std.
    split; [exact Htr|]. split; [exact G1|]. split; [exact G2|].
    split; [exact G3|]. split; [exact H0|]. split; [exact H1|].
    split; [rewrite Hfiles; apply lookup_insert_eq|].
    exists ([EvMakedirs (log_dir args); EvFileHandler (log_path args)] ++
            evs ++ [EvClfNew clf_config; EvClfFit true; EvClfScore]).
    split.
    + rewrite main_split, (bind_ok _ _ _ _ _ Hline) in Hm.
      unfold logger_info in Hm. injection Hm as <-. cbn [trace].
      cbn [log_events trace] in Et. rewrite Et, opened_trace. unfold clf_events.
      rewrite <- !app_assoc. reflexivity.
    + apply Forall_app. split; [repeat constructor|].
      apply Forall_app. split; [|repeat constructor].
      eapply Forall_impl; [exact Ft|]. apply script_event_low_shot.
  - intros args0 w0. destruct (emits_main args0 w0) as (evs & E & F).
    exists evs. split; [exact E|].
    eapply Forall_impl; [exact F|]. apply script_event_low_shot.
Qed.

End EvaluationSpec.

(** ** Precision, the final layer and the log line *)

Lemma concat_map_rows {A B} (g : A -> B) (xss : list (list A)) :
  concat (map (map g) xss) = map g (concat xss).
Proof.
  induction xss as [|xs xss IH]; [reflexivity|].
  cbn [map concat]. now rewrite IH, map_app.
Qed.

Section ExtractorResults.

Context `{Ext : External}.

Lemma forward_pass_call args model use_fp16 data :
  snd (encode_call args model (scaler_of use_fp16) data) =
  forward_pass args model use_fp16 data.
Proof.
  unfold encode_call, forward_pass. rewrite autocast_scaler_of.
  now destruct (PyStr.contains "vit" (model_type args)).
Qed.

Lemma batch_array_tensor args model fp16_scaler data dt rows :
  dt <> BFloat16 ->
  snd (encode_call args model fp16_scaler data) = Ok (OTensor dt rows) ->
  batch_array args model fp16_scaler data = Ok (map (pair dt) rows).
Proof.
  intros Hdt H. unfold batch_array. rewrite H. cbn [select_final to_numpy].
  destruct dt; [reflexivity | now destruct Hdt | reflexivity | reflexivity].
Qed.

Lemma batch_array_list args model fp16_scaler data init dt rows :
  dt <> BFloat16 ->
  snd (encode_call args model fp16_scaler data) =
    Ok (OList (init ++ [OTensor dt rows])) ->
  batch_array args model fp16_scaler data = Ok (map (pair dt) rows).
Proof.
  intros Hdt H. unfold batch_array. rewrite H. cbn [select_final].
  rewrite last_snoc. cbn [to_numpy].
  destruct dt; [reflexivity | now destruct Hdt | reflexivity | reflexivity].
Qed.

Lemma encoded_batch_array args model use_fp16 dt (b : Batch) rows :
  dt <> BFloat16 ->
  encoded args model use_fp16 dt b rows ->
  batch_array args model (scaler_of use_fp16) (fst b) = Ok (map (pair dt) rows).
Proof.
  intros Hdt [H|[init H]]; rewrite <- forward_pass_call in H.
  - now apply batch_array_tensor.
  - now apply batch_array_list with (init := init).
Qed.

Lemma encoded_get_embeddings args model use_fp16 dt
    (dl : list (list Input * list Label)) (rowss : list (list Row)) w :
  dt <> BFloat16 ->
  Forall2 (encoded args model use_fp16 dt) dl rowss ->
  get_embeddings args model dl (scaler_of use_fp16) w =
  (Ok (map (pair dt) (concat rowss), concat (map snd dl)),
   log_events
     (EvEval :: map (batch_event args model (scaler_of use_fp16)) dl) w).
Proof.
  intros Hdt H.
  rewrite (get_embeddings_ok args model (scaler_of use_fp16) dl
             (map (map (pair dt)) rowss) w).
  - now rewrite concat_map_rows.
  - induction H as [|b rows dl rowss Hb _ IH]; cbn [map]; constructor;
      [now apply encoded_batch_array | exact IH].
Qed.

(** C5.  When the encoder returns a list for a batch, the rows the
    extractor returns for that batch are those of the last element of
    the list, and of no other element; when it returns a tensor, they
    are the rows of that tensor.  They stand in the returned array
    between the rows of the batches before and the rows of the batches
    after, and the labels likewise. *)
Theorem final_layer_selected args model fp16_scaler
    (pre post : list (list Input * list Label)) (apre apost : list Array)
    data target w :
  Forall2 (fun (b : Batch) a =>
             batch_array args model fp16_scaler (fst b) = Ok a) pre apre ->
  Forall2 (fun (b : Batch) a =>
             batch_array args model fp16_scaler (fst b) = Ok a) post apost ->
  (forall init dt rows,
      snd (encode_call args model fp16_scaler data) =
        Ok (OList (init ++ [OTensor dt rows])) ->
      dt <> BFloat16 ->
      get_embeddings args model (pre ++ (data, target) :: post) fp16_scaler w =
      (Ok (concat apre ++ map (pair dt) rows ++ concat apost,
           concat (map snd pre) ++ target ++ concat (map snd post)),
       log_events
         (EvEval :: map (batch_event args model fp16_scaler)
                        (pre ++ (data, target) :: post)) w)) /\
  (forall dt rows,
      snd (encode_call args model fp16_scaler data) = Ok (OTensor dt rows) ->
      dt <> BFloat16 ->
      get_embeddings args model (pre ++ (data, target) :: post) fp16_scaler w =
      (Ok (concat apre ++ map (pair dt) rows ++ concat apost,
           concat (map snd pre) ++ target ++ concat (map snd post)),
       log_events
         (EvEval :: map (batch_event args model fp16_scaler)
                        (pre ++ (data, target) :: post)) w)).
Proof.
  intros Hpre Hpost.
  assert (Hrun : forall a,
             batch_array args model fp16_scaler data = Ok a ->
             get_embeddings args model (pre ++ (data, target) :: post)
               fp16_scaler w =
             (Ok (concat apre ++ a ++ concat apost,
                  concat (map snd pre) ++ target ++ concat (map snd post)),
              log_events
                (EvEval :: map (batch_event args model fp16_scaler)
                               (pre ++ (data, target) :: post)) w)).
  { intros a Ha.
    rewrite (get_embeddings_ok args model fp16_scaler
               (pre ++ (data, target) :: post) (apre ++ a :: apost) w).
    - now rewrite concat_app, map_app, concat_app.
    - apply Forall2_app; [exact Hpre|]. constructor; [exact Ha | exact Hpost]. }
  split.
  - intros init dt rows Hout Hdt. apply Hrun.
    now apply batch_array_list with (init := init).
  - intros dt rows Hout Hdt. apply Hrun. now apply batch_array_tensor.
Qed.

(** C4, as the code has it.  The forward pass of every batch runs with
    autocast enabled exactly when the reduced-precision flag is set:
    [eval_linear] creates a gradient scaler exactly then, the extractor
    enables autocast exactly when it is given a scaler, and the driver
    passes the flag of the command line.  The output is detached, moved
    to host memory and turned into an array with no conversion: when the
    forward passes so run give tensors of precision [dt] (one numpy has),
    the array returned for a split holds their rows in precision [dt],
    and these are the arrays the classifier and the low-shot routine are
    given. *)
Theorem autocast_follows_flag_precision_kept args model use_fp16 dt
    (tr va te : list (list Input * list Label))
    (rtr rva rte : list (list Row)) w :
  dt <> BFloat16 ->
  Forall2 (encoded args model use_fp16 dt) tr rtr ->
  Forall2 (encoded args model use_fp16 dt) va rva ->
  Forall2 (encoded args model use_fp16 dt) te rte ->
  (forall w0,
      get_embeddings args model tr (scaler_of use_fp16) w0 =
      (Ok (map (pair dt) (concat rtr), concat (map snd tr)),
       log_events
         (EvEval :: map (batch_event args model (scaler_of use_fp16)) tr) w0)) /\
  (exists w',
      eval_linear args model tr va te use_fp16 w =
      (Ok (results_of
             (map (pair dt) (concat rtr)) (concat (map snd tr))
             (map (pair dt) (concat rva)) (concat (map snd va))
             (map (pair dt) (concat rte)) (concat (map snd te))), w')) /\
  (forall w0 w',
      main args w0 = (Ok tt, w') ->
      exists tr0 va0 te0 model0 u res mean std w3,
        get_data args (opened args w0) =
          (Ok (Some (tr0, va0, te0)),
           log_events loader_events (opened args w0)) /\
        load_model args (log_events loader_events (opened args w0)) =
          (Ok model0, u) /\
        eval_linear args model0 tr0 va0 te0 (use_fp16_eval args)
          (log_events [EvCuda; EvEval] u) = (Ok res, w3) /\
        score_5 res !! 0 = Some mean /\
        score_5 res !! 1 = Some std /\
        logger_info (log_path args)
          (log_line (model_epoch args) (score_all res) mean std) w3 =
        (Ok tt, w')).
Proof.
  intros Hdt Htr Hva Hte. split; [|split].
  - intros w0. now apply encoded_get_embeddings.
  - eexists. rewrite eval_linear_eq.
    apply eval_linear_from_ok with
      (w1 := log_events
               (EvEval :: map (batch_event args model (scaler_of use_fp16)) tr)
               (scaler_world use_fp16 w))
      (w2 := log_events
               (EvEval :: map (batch_event args model (scaler_of use_fp16)) va)
               (log_events
                  (EvEval :: map (batch_event args model (scaler_of use_fp16)) tr)
                  (scaler_world use_fp16 w)));
      now apply encoded_get_embeddings.
  - intros w0 w' Hm. rewrite main_split in Hm.
    apply bind_ok_inv in Hm as (line & w3 & Hline & Hlog).
    destruct (main_line_ok_inv _ _ _ _ Hline)
      as (tr0 & va0 & te0 & model0 & u & res & mean & std &
          Hd & _ & Hl & He & H0 & H1 & ->).
    now exists tr0, va0, te0, model0, u, res, mean, std, w3.
Qed.

End ExtractorResults.

Section LogLine.

Context `{Ext : External}.

Lemma quiet_batch_event args model fp16_scaler b :
  quiet (batch_event args model fp16_scaler b).
Proof.
  unfold batch_event, encode_call.
  now destruct (PyStr.contains "vit" (model_type args)).
Qed.

Lemma quiet_get_data args : emits quiet (get_data args).
Proof.
  unfold get_data, get_fsd50k.
  destruct (String.eqb (dataset args) "fsd50k"); [|auto with effects].
  apply emits_bind; [|auto with effects].
  repeat (apply emits_bind; [apply emits_call; exact I | intros ?]).
  auto with effects.
Qed.

Lemma quiet_load_model args : emits quiet (load_model args).
Proof.
  unfold load_model. apply emits_bind; [apply emits_emit; exact I | intros _].
  destruct (negb (String.eqb (model_file_path args) "")); [|auto with effects].
  apply emits_bind; [apply emits_call; exact I | intros ?].
  apply emits_bind; [auto with effects | intros ?].
  apply emits_call. exact I.
Qed.

Lemma quiet_eval_linear args model tr va te use_fp16 :
  emits quiet (eval_linear args model tr va te use_fp16).
Proof.
  intros w. rewrite eval_linear_eq.
  destruct (emits_eval_linear_from quiet args model tr va te
              (scaler_of use_fp16)) with
    (w := scaler_world use_fp16 w) as (evs & E & F).
  - exact I.
  - apply quiet_batch_event.
  - unfold clf_events. repeat constructor.
  - rewrite E. unfold scaler_world. destruct use_fp16.
    + exists (EvGradScaler :: evs). cbn. rewrite <- app_assoc.
      split; [reflexivity|]. constructor; [exact I | exact F].
    + exists evs. now split.
Qed.

Lemma quiet_main_line args : emits quiet (main_line args).
Proof.
  unfold main_line.
  apply emits_bind; [apply quiet_get_data | intros loaders].
  apply emits_bind; [destruct loaders; auto with effects|].
  intros [[tr va] te].
  apply emits_bind; [apply quiet_load_model | intros model].
  do 2 (apply emits_bind; [apply emits_emit; exact I | intros _]).
  apply emits_bind; [apply quiet_eval_linear | intros scores].
  cbv zeta.
  do 2 (apply emits_bind; [apply emits_index | intros ?]).
  destruct (PyStr.format _ _); auto with effects.
Qed.

(** In a run that reaches its end the [logger.info] call is the last
    call, and the only one of its kind. *)
Lemma main_ok_trace args w w' :
  main args w = (Ok tt, w') ->
  exists calls line w1,
    main_line args (opened args w) = (Ok line, w1) /\
    trace w' = trace w ++ calls ++ [EvLogInfo (log_path args) line] /\
    Forall quiet calls.
Proof.
  rewrite main_split. intros H.
  apply bind_ok_inv in H as (line & w1 & Hl & H).
  destruct (emits_run _ _ _ _ _ (quiet_main_line args) Hl) as (evs & E & F).
  exists ([EvMakedirs (log_dir args); EvFileHandler (log_path args)] ++ evs),
    line, w1.
  split; [exact Hl|]. unfold logger_info in H. injection H as <-. cbn [trace].
  rewrite E, opened_trace, <- !app_assoc. split; [reflexivity|].
  repeat constructor. exact F.
Qed.

(** A run that stops on an exception has made no [logger.info] call. *)
Lemma main_abort_trace args w e w' :
  main args w = (Raise e, w') ->
  exists calls, trace w' = trace w ++ calls /\ Forall quiet calls.
Proof.
  rewrite main_split, bind_run. intros H.
  destruct (main_line args (opened args w)) as [[line|e'] w1] eqn:Hl;
    [discriminate H|].
  injection H as _ <-.
  destruct (emits_run _ _ _ _ _ (quiet_main_line args) Hl) as (evs & E & F).
  exists ([EvMakedirs (log_dir args); EvFileHandler (log_path args)] ++ evs).
  rewrite E, opened_trace, <- !app_assoc. split; [reflexivity|].
  repeat constructor. exact F.
Qed.

(** C6, as the code has it.  A run that reaches its end without an
    exception has called [logger.info] exactly once, as its last call,
    and the line is the last line of
    [logs/linear_eval/<dataset>/<model_name>/log.csv], after the lines
    the file held and whatever was logged during the run.  The line is
    [epoch,<e>,linear_score,<s>,linear_score_5_mean,<m>,linear_score_5_std,<sd>]
    with the epoch, the full-data score and the first two components of
    the low-shot result; when the scores are floats, printed as Python
    prints a float, then for epoch 100 and the scores 0.8532, 0.71 and
    0.04 it is the line of the example.  The run reaches its end when
    the loaders, the model and the evaluation go through and the
    low-shot result has two components. *)
Theorem main_appends_log_line args w :
  (forall w',
      main args w = (Ok tt, w') ->
      exists tr va te model u res w3 mean std calls logged,
        get_data args (opened args w) =
          (Ok (Some (tr, va, te)), log_events loader_events (opened args w)) /\
        load_model args (log_events loader_events (opened args w)) =
          (Ok model, u) /\
        eval_linear args model tr va te (use_fp16_eval args)
          (log_events [EvCuda; EvEval] u) = (Ok res, w3) /\
        score_5 res !! 0 = Some mean /\
        score_5 res !! 1 = Some std /\
        trace w' =
          trace w ++ calls ++
          [EvLogInfo (log_path args)
             (log_line (model_epoch args) (score_all res) mean std)] /\
        Forall quiet calls /\
        files w' !! log_path args =
          Some (default [] (files w !! log_path args) ++ logged ++
                [log_line (model_epoch args) (score_all res) mean std]) /\
        log_path args =
        "logs/linear_eval/" +:+ dataset args +:+ "/" +:+ model_name args +:+
        "/log.csv" /\
        log_line (model_epoch args) (score_all res) mean std =
        "epoch," +:+ PyStr.str_int (model_epoch args) +:+
        ",linear_score," +:+ str_score (score_all res) +:+
        ",linear_score_5_mean," +:+ str_score mean +:+
        ",linear_score_5_std," +:+ str_score std /\
        (forall as_float : Score -> PyFloat.t,
            (forall s, str_score s = PyFloat.repr (as_float s)) ->
            model_epoch args = 100%Z ->
            as_float (score_all res) = PyFloat.of_decimal false 8532 (-4) ->
            as_float mean = PyFloat.of_decimal false 71 (-2) ->
            as_float std = PyFloat.of_decimal false 4 (-2) ->
            log_line (model_epoch args) (score_all res) mean std =
            "epoch,100,linear_score,0.8532,linear_score_5_mean,0.71,linear_score_5_std,0.04")) /\
  (forall tr va te model w2 res w3 mean std,
      get_data args (opened args w) =
        (Ok (Some (tr, va, te)), log_events loader_events (opened args w)) ->
      load_model args (log_events loader_events (opened args w)) =
        (Ok model, w2) ->
      eval_linear args model tr va te (use_fp16_eval args)
        (log_events [EvCuda; EvEval] w2) = (Ok res, w3) ->
      score_5 res !! 0 = Some mean ->
      score_5 res !! 1 = Some std ->
      main args w =
      logger_info (log_path args)
        (log_line (model_epoch args) (score_all res) mean std) w3).
Proof.
  split.
  - intros w' Hm.
    destruct (main_ok_files _ _ _ Hm) as (line & w1 & Hline & Hfiles).
    destruct (main_ok_trace _ _ _ Hm) as (calls & line' & w1' & Hline' & Ht & Fq).
    rewrite Hline in Hline'. injection Hline' as <- <-.
    destruct (main_line_ok_inv _ _ _ _ Hline)
      as (tr & va & te & model & u & res & mean & std &
          Hd & _ & Hl & He & H0 & H1 & ->).
    exists tr, va, te, model, u, res, w1, mean, std, calls, [].
    split; [exact Hd|]. split; [exact Hl|].
    split; [exact He|]. split; [exact H0|]. split; [exact H1|].
    split; [exact Ht|]. split; [exact Fq|].
    split; [rewrite Hfiles; apply lookup_insert_eq|].
    split; [apply log_path_eq|]. split; [reflexivity|].
    intros as_float Hfmt Hep Hs Hmean Hstd. unfold log_line.
    rewrite !Hfmt, Hep, Hs, Hmean, Hstd. vm_compute. reflexivity.
  - intros tr va te model w2 res w3 mean std. apply main_completes.
Qed.

End LogLine.

(** ** Runs of the small installation *)

Example toy_run_line :
  files (snd (main (Ext := Toy.ext) Toy.args Toy.world)) !! log_path Toy.args =
  Some ["epoch,100,linear_score,0.8532,linear_score_5_mean,0.71,linear_score_5_std,0.04"].
Proof. vm_compute. reflexivity. Qed.

(** How Python prints a float: the shortest digits that read back, a
    digit after the point, exponent notation for the very small and the
    very large. *)
Example repr_scores :
  map PyFloat.repr
    [PyFloat.of_decimal false 8532 (-4); PyFloat.of_decimal false 71 (-2);
     PyFloat.of_decimal false 4 (-2); PyFloat.of_decimal false 1 0;
     PyFloat.of_decimal false 85 0; PyFloat.of_decimal false 5 (-1);
     PyFloat.of_decimal false 1 (-5); PyFloat.of_decimal false 1 16;
     PyFloat.of_ratio false 1 3; PyFloat.Zero false; PyFloat.Nan] =
  ["0.8532"; "0.71"; "0.04"; "1.0"; "85.0"; "0.5"; "1e-05"; "1e+16";
   "0.3333333333333333"; "0.0"; "nan"].
Proof. vm_compute. reflexivity. Qed.

(** A run with float scores writes the line of the example. *)
Example floats_run_line :
  files (snd (main (Ext := Floats.ext) Toy.args Toy.world)) !! log_path Toy.args =
  Some ["epoch,100,linear_score,0.8532,linear_score_5_mean,0.71,linear_score_5_std,0.04"].
Proof. vm_compute. reflexivity. Qed.

Example toy_clean_backbone :
  clean_state_dict
    [("backbone.encoder.conv.weight", 1); ("backbone.projector.weight", 2);
     ("encoder.encoder.fc.bias", 3)] = [("conv.weight", 1)].
Proof. reflexivity. Qed.

Example toy_clean_encoder :
  clean_state_dict [("encoder.encoder.conv.weight", 1); ("head.weight", 2)]
  = [("conv.weight", 1)].
Proof. reflexivity. Qed.

Example toy_clean_neither :
  clean_state_dict [("conv.weight", 1); ("fc.bias", 3)]
  = [("conv.weight", 1); ("fc.bias", 3)].
Proof. reflexivity. Qed.

(** The "prefix" is looked for anywhere in the key and removed wherever
    it occurs. *)
Example toy_clean_inner :
  clean_state_dict [("module.backbone.encoder.conv.weight", 1)]
  = [("module.conv.weight", 1)].
Proof. reflexivity. Qed.

(** An encoder that returns an empty list stops the extraction. *)
Example select_final_empty `{Ext : External} :
  select_final (OList []) = Raise IndexError.
Proof. reflexivity. Qed.

(** C6, counterexample.  A run whose checkpoint file cannot be read
    stops on the exception of [torch.load]; the log file has been
    created and holds no line. *)
Lemma aborted_run_appends_nothing :
  fst (main (Ext := Toy.ext) (Toy.with_path "missing.pth" Toy.args) Toy.world)
    = Raise OSError /\
  files (snd (main (Ext := Toy.ext) (Toy.with_path "missing.pth" Toy.args)
                Toy.world))
    !! log_path (Toy.with_path "missing.pth" Toy.args) = Some [] /\
  ~ appends_one_line (Ext := Toy.ext) (Toy.with_path "missing.pth" Toy.args)
      Toy.world.
Proof.
  assert (Hf : files (snd (main (Ext := Toy.ext)
                             (Toy.with_path "missing.pth" Toy.args) Toy.world))
               !! log_path (Toy.with_path "missing.pth" Toy.args) = Some [])
    by (vm_compute; reflexivity).
  split; [vm_compute; reflexivity|]. split; [exact Hf|].
  intros [line H]. rewrite Hf in H.
  unfold Toy.world in H. cbn [files] in H.
  rewrite lookup_empty in H. discriminate H.
Qed.

(** C4, counterexample.  With the flag on, the small encoder works in
    half precision, and the rows stored are in half precision. *)
Lemma half_precision_is_stored :
  ~ stores_standard_precision (Ext := Toy.ext) Toy.args Toy.model
      (Toy.loader "train") (Some tt) Toy.world.
Proof.
  intros H.
  specialize (H [(Float16, 2); (Float16, 4); (Float16, 6)] [10; 20; 30]
                (log_events [EvEval; EvForward true; EvForward true] Toy.world)
                eq_refl).
  inversion H as [|r rs Hr _]. discriminate Hr.
Qed.

(** ** The theorems on the small installation *)

Lemma get_embeddings_covers_witness :
  Toy.loader "train" <> [] /\
  exists embs targets w',
    get_embeddings (Ext := Toy.ext) Toy.args Toy.model (Toy.loader "train")
      None Toy.world = (Ok (embs, targets), w') /\
    length embs = 3 /\ length targets = 3.
Proof.
  split; [discriminate|].
  destruct (get_embeddings_covers (Ext := Toy.ext) Toy.args Toy.model None
              (Toy.loader "train")
              [[(Float32, 2); (Float32, 4)]; [(Float32, 6)]] Toy.world)
    as (embs & targets & w' & Hrun & _ & _ & Hlen & Htot & _).
  - discriminate.
  - repeat constructor.
  - repeat constructor.
  - exists embs, targets, w'. split; [exact Hrun|].
    split; [exact Htot | now rewrite <- Hlen].
Defined.

Lemma load_model_prefix_preference_witness :
  load_model (Ext := Toy.ext) Toy.args Toy.world =
  (Ok Toy.model,
   log_events [EvModelWrapper; EvTorchLoad "ckpt.pth";
               EvLoadStateDict ["conv.weight"; "fc.bias"] true] Toy.world).
Proof.
  destruct (load_model_prefix_preference (Ext := Toy.ext) Toy.args Toy.world
              (PDict [("epoch", PTensor 7);
                      ("model",
                       PDict [("backbone.encoder.conv.weight", PTensor 1);
                              ("backbone.projector.weight", PTensor 2);
                              ("backbone.encoder.fc.bias", PTensor 3)])])
              [("backbone.encoder.conv.weight", PTensor 1);
               ("backbone.projector.weight", PTensor 2);
               ("backbone.encoder.fc.bias", PTensor 3)])
    as (_ & _ & _ & _ & _ & H).
  - discriminate.
  - reflexivity.
  - reflexivity.
  - exact H.
Defined.

Lemma toy_strict_contract : strict_contract (Ext := Toy.ext).
Proof.
  intros m sd H. change (Toy.strict_load m sd true = Raise RuntimeError).
  change (keys_match (PyDict.keys (V := pyval nat) sd) m = false) in H.
  unfold Toy.strict_load. now rewrite H.
Defined.

Lemma strict_load_mismatch_aborts_witness :
  exists e w',
    main (Ext := Toy.ext) (Toy.with_path "other.pth" Toy.args) Toy.world =
    (Raise e, w') /\
    files w' !! log_path (Toy.with_path "other.pth" Toy.args) = Some [].
Proof.
  destruct (strict_load_mismatch_aborts (Ext := Toy.ext)
              (Toy.with_path "other.pth" Toy.args) Toy.world
              (PDict [("encoder.encoder.conv.weight", PTensor 1);
                      ("head.weight", PTensor 2)])
              [("encoder.encoder.conv.weight", PTensor 1);
               ("head.weight", PTensor 2)])
    as (_ & (e & w' & Hm & Hf) & _).
  - exact toy_strict_contract.
  - discriminate.
  - reflexivity.
  - reflexivity.
  - reflexivity.
  - exists e, w'. split; [exact Hm|]. rewrite Hf. apply lookup_insert_eq.
Defined.

Lemma eval_linear_classifier_witness :
  exists res w',
    eval_linear (Ext := Toy.ext) Toy.args Toy.model (Toy.loader "train")
      (Toy.loader "val") (Toy.loader "test") true Toy.world = (Ok res, w') /\
    score_all res = "0.8532".
Proof.
  destruct (eval_linear_classifier (Ext := Toy.ext) Toy.args Toy.model
              (Toy.loader "train") (Toy.loader "val") (Toy.loader "test")
              true Toy.world
              [(Float16, 2); (Float16, 4); (Float16, 6)] [10; 20; 30]
              [(Float16, 8)] [40]
              [(Float16, 10); (Float16, 12)] [50; 60]
              {| files := ∅;
                 trace := [EvGradScaler; EvEval; EvForward true; EvForward true] |}
              {| files := ∅;
                 trace := [EvGradScaler; EvEval; EvForward true; EvForward true;
                           EvEval; EvForward true] |}
              {| files := ∅;
                 trace := [EvGradScaler; EvEval; EvForward true; EvForward true;
                           EvEval; EvForward true; EvEval; EvForward true] |})
    as (res & Hrun & Hscore & _).
  - reflexivity.
  - reflexivity.
  - reflexivity.
  - exists res. eexists. split; [exact Hrun | exact Hscore].
Defined.

Lemma low_shot_five_per_class_witness :
  exists w' line,
    main (Ext := Toy.ext) Toy.args Toy.world = (Ok tt, w') /\
    files w' !! log_path Toy.args = Some [line] /\
    exists evs,
      trace w' = evs ++ [EvLowShot 5; EvLogInfo (log_path Toy.args) line].
Proof.
  destruct (main (Ext := Toy.ext) Toy.args Toy.world) as [r w'] eqn:Hrun.
  assert (Hr : r = Ok tt).
  { change r with (fst (r, w')). rewrite <- Hrun. vm_compute. reflexivity. }
  subst r.
  destruct (low_shot_five_per_class (Ext := Toy.ext) Toy.args Toy.world w' Hrun)
    as ((model & tr & va & te & fp16 & w0 & w1 & w2 & w3 &
         Xtr & ytr & Xv & yv & Xte & yte & mean & std &
         _ & _ & _ & _ & _ & _ & Hf & evs & Ht & _) & _).
  eexists w', _. split; [reflexivity|]. split; [exact Hf|].
  exists evs. exact Ht.
Defined.

Lemma unsupported_dataset_aborts_witness :
  main (Ext := Toy.ext) (Toy.with_dataset "esc50" Toy.args) Toy.world =
  (Raise TypeError, opened (Toy.with_dataset "esc50" Toy.args) Toy.world) /\
  get_data (Ext := Toy.ext) Toy.args Toy.world =
  (Ok (Some (Toy.loader "train", Toy.loader "val", Toy.loader "test")),
   log_events loader_events Toy.world).
Proof.
  split.
  - apply (proj1 (unsupported_dataset_aborts (Ext := Toy.ext)
                    (Toy.with_dataset "esc50" Toy.args) Toy.world)).
    discriminate.
  - apply (proj2 (unsupported_dataset_aborts (Ext := Toy.ext)
                    Toy.args Toy.world)); reflexivity.
Defined.

Lemma load_model_default_path_witness :
  load_model (Ext := Toy.ext) (Toy.with_path "" Toy.args) Toy.world =
  (Ok Toy.model, log_events [EvModelWrapper] Toy.world).
Proof.
  apply (proj1 (load_model_default_path (Ext := Toy.ext)
                  (Toy.with_path "" Toy.args) Toy.world)).
  reflexivity.
Defined.

Lemma final_layer_selected_witness :
  get_embeddings (Ext := Toy.ext) (Toy.with_model_type "vit_base" Toy.args)
    Toy.model (Toy.loader "train") None Toy.world =
  (Ok ([(Float32, 2); (Float32, 4); (Float32, 6)], [10; 20; 30]),
   log_events [EvEval; EvEncodeVit false true false;
               EvEncodeVit false true false] Toy.world).
Proof.
  apply (proj1 (final_layer_selected (Ext := Toy.ext)
                  (Toy.with_model_type "vit_base" Toy.args) Toy.model None
                  [([1; 2], [10; 20])] [] [[(Float32, 2); (Float32, 4)]] []
                  [3] [30] Toy.world
                  ltac:(repeat constructor) ltac:(constructor))
           [OTensor Float32 [4]] Float32 [6]).
  - reflexivity.
  - discriminate.
Defined.

Lemma autocast_follows_flag_precision_kept_witness :
  exists w',
    eval_linear (Ext := Toy.ext) Toy.args Toy.model (Toy.loader "train")
      (Toy.loader "val") (Toy.loader "test") true Toy.world =
    (Ok (results_of (Ext := Toy.ext)
           [(Float16, 2); (Float16, 4); (Float16, 6)] [10; 20; 30]
           [(Float16, 8)] [40]
           [(Float16, 10); (Float16, 12)] [50; 60]), w').
Proof.
  apply (proj1 (proj2 (autocast_follows_flag_precision_kept (Ext := Toy.ext)
                         Toy.args Toy.model true Float16
                         [([1; 2], [10; 20]); ([3], [30])] [([4], [40])]
                         [([5; 6], [50; 60])]
                         [[2; 4]; [6]] [[8]] [[10; 12]] Toy.world
                         ltac:(discriminate)
                         ltac:(repeat (constructor; [left; reflexivity|]);
                               constructor)
                         ltac:(repeat (constructor; [left; reflexivity|]);
                               constructor)
                         ltac:(repeat (constructor; [left; reflexivity|]);
                               constructor)))).
Defined.

Lemma main_appends_log_line_witness :
  exists w' calls,
    main (Ext := Floats.ext) Toy.args Toy.world = (Ok tt, w') /\
    trace w' =
      calls ++
      [EvLogInfo "logs/linear_eval/fsd50k/byol/log.csv"
         "epoch,100,linear_score,0.8532,linear_score_5_mean,0.71,linear_score_5_std,0.04"] /\
    Forall quiet calls.
Proof.
  destruct (main (Ext := Floats.ext) Toy.args Toy.world) as [r w'] eqn:Hrun.
  assert (Hr : r = Ok tt).
  { change r with (fst (r, w')). rewrite <- Hrun. vm_compute. reflexivity. }
  subst r.
  destruct (proj1 (main_appends_log_line (Ext := Floats.ext) Toy.args Toy.world)
              w' Hrun)
    as (tr & va & te & model & u & res & w3 & mean & std & calls & logged &
        _ & _ & He & H0 & H1 & Ht & Fq & _ & Hp & _ & Hex).
  rewrite eval_linear_eq in He.
  destruct (eval_linear_from_ok_inv (Ext := Floats.ext) _ _ _ _ _ _ _ _ _ He)
    as (Xtr & ytr & Xv & yv & Xte & yte & u1 & u2 & u3 & _ & _ & _ & -> & _).
  injection H0 as <-. injection H1 as <-.
  exists w', calls. split; [reflexivity|]. split; [|exact Fq].
  rewrite Ht, Hp.
  rewrite (Hex (fun s => s) (fun s => eq_refl) eq_refl eq_refl eq_refl eq_refl).
  reflexivity.
Defined.

(** * Further properties of the script *)

(** ** Lookup and assignment in a dictionary *)

Section DictLookup.

Context {V : Type}.
Implicit Types (d acc : PyDict.t V) (k : string) (v : V).

Lemma get_set k' k v d :
  PyDict.get k' (PyDict.set k v d) =
  if String.eqb k' k then Some v else PyDict.get k' d.
Proof.
  induction d as [|[k0 v0] d IH]; cbn; [reflexivity|].
  destruct (String.eqb k k0) eqn:E0; cbn.
  - apply String.eqb_eq in E0. subst k0. now destruct (String.eqb k' k).
  - rewrite IH. destruct (String.eqb k' k) eqn:E1; [|reflexivity].
    apply String.eqb_eq in E1. subst k'. now rewrite E0.
Qed.

Lemma elem_of_keys_set k0 k v d :
  k0 ∈ PyDict.keys (PyDict.set k v d) <-> k0 = k \/ k0 ∈ PyDict.keys d.
Proof.
  unfold PyDict.keys. induction d as [|[k1 v1] d IH]; cbn.
  - rewrite list_elem_of_singleton. split; [now left | intros [H|H]; [exact H|]].
    now apply not_elem_of_nil in H.
  - destruct (String.eqb k k1) eqn:E; cbn.
    + apply String.eqb_eq in E. subst k1. rewrite !elem_of_cons. tauto.
    + rewrite !elem_of_cons, IH. tauto.
Qed.

Lemma set_keys_nodup k v d :
  NoDup (PyDict.keys d) -> NoDup (PyDict.keys (PyDict.set k v d)).
Proof.
  unfold PyDict.keys. induction d as [|[k1 v1] d IH]; cbn; intros H.
  - apply NoDup_singleton.
  - apply NoDup_cons in H as [Hn Hd].
    destruct (String.eqb k k1) eqn:E; cbn.
    + apply String.eqb_eq in E. subst k1. now apply NoDup_cons.
    + apply NoDup_cons. split; [|now apply IH].
      intros Hin. apply (elem_of_keys_set k1 k v d) in Hin as [->|Hin].
      * now rewrite String.eqb_refl in E.
      * now apply Hn.
Qed.

Lemma set_fresh k v d :
  k ∉ PyDict.keys d -> PyDict.set k v d = d ++ [(k, v)].
Proof.
  unfold PyDict.keys. induction d as [|[k1 v1] d IH]; cbn; intros H;
    [reflexivity|].
  apply not_elem_of_cons in H as [Hne Hd].
  destruct (String.eqb k k1) eqn:E.
  - apply String.eqb_eq in E. now subst.
  - now rewrite IH.
Qed.

Lemma set_length k v d : length (PyDict.set k v d) <= S (length d).
Proof.
  induction d as [|[k1 v1] d IH]; cbn; [lia|].
  destruct (String.eqb k k1); cbn; lia.
Qed.

Lemma get_Some_keys k d v : PyDict.get k d = Some v -> k ∈ PyDict.keys d.
Proof.
  unfold PyDict.keys. induction d as [|[k1 v1] d IH]; cbn; [discriminate|].
  destruct (String.eqb k k1) eqn:E.
  - apply String.eqb_eq in E. subst. intros _. apply elem_of_cons. now left.
  - intros H. apply elem_of_cons. right. now apply IH.
Qed.

Lemma keys_get_Some k d : k ∈ PyDict.keys d -> exists v, PyDict.get k d = Some v.
Proof.
  unfold PyDict.keys. induction d as [|[k1 v1] d IH]; cbn; intros H.
  - now apply not_elem_of_nil in H.
  - destruct (String.eqb k k1) eqn:E; [now exists v1|].
    apply elem_of_cons in H as [->|H]; [now rewrite String.eqb_refl in E|].
    now apply IH.
Qed.

Lemma last_cons_match {A} (x : A) (l : list A) :
  last (x :: l) = match last l with Some y => Some y | None => Some x end.
Proof.
  revert x. induction l as [|y l IH]; intros x; [reflexivity|].
  change (last (x :: y :: l)) with (last (y :: l)).
  rewrite IH. now destruct (last l).
Qed.

Lemma comprehension_get_acc (f : string -> string) (c : string -> bool) k' d acc :
  PyDict.get k' (fold_left (comprehension_step f c) d acc) =
  match last (sent_to f c k' d) with
  | Some kv => Some (snd kv)
  | None => PyDict.get k' acc
  end.
Proof.
  revert acc. induction d as [|[k v] d IH]; intros acc; [reflexivity|].
  cbn [fold_left]. rewrite IH. unfold sent_to. cbn [List.filter fst snd].
  unfold comprehension_step. cbn [fst snd].
  fold (sent_to f c k' d).
  destruct (c k) eqn:Ec; cbn [andb].
  - rewrite String.eqb_sym.
    destruct (String.eqb k' (f k)) eqn:Ek.
    + rewrite last_cons_match. destruct (last (sent_to f c k' d)); [reflexivity|].
      now rewrite get_set, Ek.
    + destruct (last (sent_to f c k' d)); [reflexivity|].
      now rewrite get_set, Ek.
  - reflexivity.
Qed.

Lemma comprehension_keys_acc (f : string -> string) (c : string -> bool) d acc :
  NoDup (PyDict.keys acc) ->
  NoDup (PyDict.keys (fold_left (comprehension_step f c) d acc)).
Proof.
  revert acc. induction d as [|[k v] d IH]; intros acc H; [exact H|].
  cbn [fold_left]. apply IH. unfold comprehension_step. cbn [fst snd].
  destruct (c k); [now apply set_keys_nodup | exact H].
Qed.

Lemma comprehension_length_acc (f : string -> string) (c : string -> bool) d acc :
  length (fold_left (comprehension_step f c) d acc) <=
  length acc + length (List.filter (fun kv => c (fst kv)) d).
Proof.
  revert acc. induction d as [|[k v] d IH]; intros acc; cbn [fold_left];
    [cbn; lia|].
  etransitivity; [apply IH|]. unfold comprehension_step.
  cbn [List.filter fst snd]. destruct (c k); cbn [length].
  - pose proof (set_length (f k) v acc). lia.
  - lia.
Qed.

Lemma comprehension_renamed_acc (f : string -> string) (c : string -> bool) d acc :
  NoDup (PyDict.keys acc ++ PyDict.keys (renamed f c d)) ->
  fold_left (comprehension_step f c) d acc = acc ++ renamed f c d.
Proof.
  revert acc. induction d as [|[k v] d IH]; intros acc H.
  - cbn. now rewrite app_nil_r.
  - cbn [fold_left]. unfold comprehension_step at 2. cbn [fst snd].
    unfold renamed in *. cbn [List.filter fst snd] in *.
    destruct (c k).
    + cbn [map fst snd] in *. unfold PyDict.keys in *. cbn [map fst] in H.
      assert (Hk : f k ∉ map fst acc).
      { apply NoDup_app in H as (_ & Hd & _). intros Hin.
        apply (Hd _ Hin). apply elem_of_cons. now left. }
      rewrite (set_fresh _ _ _ Hk), IH.
      * now rewrite <- app_assoc.
      * rewrite map_app. cbn [map fst]. now rewrite <- app_assoc.
    + now apply IH.
Qed.

End DictLookup.

(** ** Putting a prefix in front of a key and taking it off *)

Lemma startswith_append p t : PyStr.startswith p (p +:+ t) = true.
Proof.
  induction p as [|a p IH]; [reflexivity|].
  rewrite append_cons. cbn [PyStr.startswith]. now rewrite Ascii.eqb_refl.
Qed.

Lemma contains_append p t : PyStr.contains p (p +:+ t) = true.
Proof.
  destruct (p +:+ t) eqn:E; cbn [PyStr.contains]; rewrite <- E;
    now rewrite startswith_append.
Qed.

Lemma replace_go_skip old new s t :
  PyStr.replace_go old new (String.length s) (s +:+ t) =
  PyStr.replace_go old new 0 t.
Proof.
  induction s as [|c s IH]; [reflexivity|].
  rewrite append_cons. cbn [String.length PyStr.replace_go]. exact IH.
Qed.

Lemma replace_go_absent old new s :
  PyStr.contains old s = false -> PyStr.replace_go old new 0 s = s.
Proof.
  induction s as [|c s IH]; [reflexivity|].
  cbn [PyStr.contains]. intros H. apply orb_false_iff in H as [Hs Hc].
  cbn [PyStr.replace_go]. now rewrite Hs, IH.
Qed.

(** A key that does not hold [p] comes back when [p] is put in front of
    it and removed. *)
Lemma replace_prefixed p k :
  p <> "" -> PyStr.contains p k = false -> PyStr.replace p "" (p +:+ k) = k.
Proof.
  intros Hp Hk. destruct p as [|a p]; [now contradict Hp|].
  unfold PyStr.replace. rewrite append_cons. cbn [PyStr.replace_go].
  rewrite <- append_cons, startswith_append.
  cbn [String.length]. rewrite Nat.sub_1_r. cbn [Nat.pred].
  rewrite replace_go_skip. now apply replace_go_absent.
Qed.

Section CleanBy.

Context {V : Type}.
Implicit Types (sd saved : PyDict.t V) (p k : string).

Lemma clean_by_fold p sd :
  clean_by p sd =
  fold_left (comprehension_step (PyStr.replace p "") (PyStr.contains p)) sd [].
Proof. reflexivity. Qed.

(** X1.  Looking a key up in the cleaned mapping gives the value of the
    last entry of the checkpoint whose key holds the prefix and becomes
    that key once the prefix is removed: when two keys collide, the later
    entry wins; a key no entry is sent to is absent. *)
Theorem clean_by_lookup_last p sd k' :
  PyDict.get k' (clean_by p sd) =
  option_map snd
    (last (sent_to (PyStr.replace p "") (PyStr.contains p) k' sd)).
Proof.
  rewrite clean_by_fold, comprehension_get_acc.
  now destruct (last _).
Qed.

Lemma clean_by_key_origin p sd k' :
  k' ∈ PyDict.keys (clean_by p sd) <->
  exists k, k ∈ PyDict.keys sd /\ PyStr.contains p k = true /\
            k' = PyStr.replace p "" k.
Proof.
  split.
  - intros Hin. apply keys_get_Some in Hin as [v Hv].
    rewrite clean_by_fold, comprehension_get_acc in Hv.
    destruct (last _) as [[k v0]|] eqn:El; [|discriminate Hv].
    apply last_Some_elem_of, list_elem_of_In, filter_In in El as [Hin Hc].
    cbn [fst] in Hc. apply andb_true_iff in Hc as [Hc He].
    apply String.eqb_eq in He. exists k. split; [|now split].
    apply list_elem_of_In. unfold PyDict.keys.
    apply in_map_iff. now exists (k, v0).
  - intros (k & Hin & Hc & ->).
    apply list_elem_of_In in Hin. unfold PyDict.keys in Hin.
    apply in_map_iff in Hin as ([k0 v] & E & Hin). cbn [fst] in E. subst k0.
    assert (Hs : (k, v) ∈ sent_to (PyStr.replace p "") (PyStr.contains p)
                   (PyStr.replace p "" k) sd).
    { apply list_elem_of_In, filter_In. split; [exact Hin|].
      cbn [fst]. now rewrite Hc, String.eqb_refl. }
    destruct (last (sent_to (PyStr.replace p "") (PyStr.contains p)
                      (PyStr.replace p "" k) sd)) as [kv|] eqn:El.
    + apply get_Some_keys with (v := snd kv).
      now rewrite clean_by_fold, comprehension_get_acc, El.
    + apply last_None in El. rewrite El in Hs. now apply not_elem_of_nil in Hs.
Qed.

(** X2.  Whatever the checkpoint holds, the cleaned mapping has no key
    twice; its keys are the keys of the checkpoint that hold the prefix,
    with the prefix removed; and it has at most as many entries as the
    checkpoint has keys that hold the prefix. *)
Theorem clean_by_keys_distinct p sd :
  NoDup (PyDict.keys (clean_by p sd)) /\
  (forall k',
      k' ∈ PyDict.keys (clean_by p sd) <->
      exists k, k ∈ PyDict.keys sd /\ PyStr.contains p k = true /\
                k' = PyStr.replace p "" k) /\
  length (clean_by p sd) <=
  length (List.filter (fun kv => PyStr.contains p (fst kv)) sd).
Proof.
  split; [|split].
  - rewrite clean_by_fold. apply comprehension_keys_acc. constructor.
  - apply clean_by_key_origin.
  - rewrite clean_by_fold.
    apply (comprehension_length_acc (PyStr.replace p "") (PyStr.contains p) sd []).
Qed.

Lemma clean_by_renamed p sd :
  NoDup (PyDict.keys (renamed (PyStr.replace p "") (PyStr.contains p) sd)) ->
  clean_by p sd = renamed (PyStr.replace p "") (PyStr.contains p) sd.
Proof.
  intros H. rewrite clean_by_fold.
  now rewrite comprehension_renamed_acc.
Qed.

(** X3.  When no two keys that hold the prefix become equal once it is
    removed, the cleaned mapping lists the entries whose key holds the
    prefix in the order of the checkpoint, each under its shortened key
    and with its own value. *)
Theorem clean_by_no_collision p sd :
  NoDup (PyDict.keys (renamed (PyStr.replace p "") (PyStr.contains p) sd)) ->
  clean_by p sd =
  map (fun kv => (PyStr.replace p "" (fst kv), snd kv))
      (List.filter (fun kv => PyStr.contains p (fst kv)) sd).
Proof. apply clean_by_renamed. Qed.

Lemma renamed_prefixed p sd saved :
  p <> "" ->
  (forall k, k ∈ PyDict.keys saved -> PyStr.contains p k = false) ->
  List.filter (fun kv => PyStr.contains p (fst kv)) sd = prefixed p saved ->
  renamed (PyStr.replace p "") (PyStr.contains p) sd = saved.
Proof.
  intros Hp Hk Hf. unfold renamed. rewrite Hf. unfold prefixed.
  rewrite map_map. cbn [fst snd]. clear Hf.
  induction saved as [|[k v] saved IH]; [reflexivity|].
  cbn [map fst snd]. rewrite replace_prefixed, IH; [reflexivity| | exact Hp |].
  - intros k0 H0. apply Hk. unfold PyDict.keys. cbn [map fst].
    apply elem_of_cons. now right.
  - apply Hk. unfold PyDict.keys. cbn [map fst]. apply elem_of_cons. now left.
Qed.

Lemma clean_by_prefixed p sd saved :
  p <> "" ->
  NoDup (PyDict.keys saved) ->
  (forall k, k ∈ PyDict.keys saved -> PyStr.contains p k = false) ->
  List.filter (fun kv => PyStr.contains p (fst kv)) sd = prefixed p saved ->
  clean_by p sd = saved.
Proof.
  intros Hp Hn Hk Hf.
  pose proof (renamed_prefixed p sd saved Hp Hk Hf) as Hr.
  rewrite clean_by_renamed; rewrite Hr; [reflexivity | exact Hn].
Qed.

(** X4.  A state dict saved under "backbone.encoder." comes back as it
    was: if the entries of the checkpoint whose key holds that prefix are
    the entries of a non-empty state dict (distinct keys, none holding
    the prefix) with the prefix in front of every key, the cleaned
    mapping is that state dict, whatever else the checkpoint holds.  The
    same goes for "encoder.encoder." when no key of the checkpoint holds
    "backbone.encoder.". *)
Theorem clean_state_dict_restores sd saved :
  saved <> [] ->
  NoDup (PyDict.keys saved) ->
  ((forall k, k ∈ PyDict.keys saved -> PyStr.contains backbone_prefix k = false) ->
   List.filter (fun kv => PyStr.contains backbone_prefix (fst kv)) sd =
     prefixed backbone_prefix saved ->
   clean_state_dict sd = saved) /\
  ((forall k, k ∈ PyDict.keys saved -> PyStr.contains encoder_prefix k = false) ->
   occurs backbone_prefix sd = false ->
   List.filter (fun kv => PyStr.contains encoder_prefix (fst kv)) sd =
     prefixed encoder_prefix saved ->
   clean_state_dict sd = saved).
Proof.
  intros Hne Hn. split.
  - intros Hk Hf. unfold clean_state_dict.
    rewrite (clean_by_prefixed backbone_prefix sd saved); try assumption;
      [|discriminate].
    now destruct saved.
  - intros Hk Ho Hf. unfold clean_state_dict.
    rewrite (truthy_false_nil (clean_by backbone_prefix sd))
      by now rewrite clean_by_truthy.
    cbn [PyDict.truthy].
    rewrite (clean_by_prefixed encoder_prefix sd saved); try assumption;
      [|discriminate].
    now destruct saved.
Qed.

End CleanBy.

(** ** The extractor over several batches *)

Section ExtractorRuns.

Context `{Ext : External}.

Lemma loop_app args model fp16_scaler
    (dl1 dl2 : list (list Input * list Label)) embs targets w :
  get_embeddings_loop args model fp16_scaler (dl1 ++ dl2) embs targets w =
  match get_embeddings_loop args model fp16_scaler dl1 embs targets w with
  | (Ok (e, t), w1) => get_embeddings_loop args model fp16_scaler dl2 e t w1
  | (Raise x, w1) => (Raise x, w1)
  end.
Proof.
  revert embs targets w.
  induction dl1 as [|[data target] dl1 IH]; intros embs targets w;
    [reflexivity|].
  cbn [app]. rewrite !loop_step.
  destruct (batch_array args model fp16_scaler data); [apply IH | reflexivity].
Qed.

Lemma loop_ok_inv args model fp16_scaler
    (dl : list (list Input * list Label)) embs targets w r w' :
  get_embeddings_loop args model fp16_scaler dl embs targets w = (Ok r, w') ->
  exists arrs,
    Forall2 (fun (b : Batch) a =>
               batch_array args model fp16_scaler (fst b) = Ok a) dl arrs /\
    r = (embs ++ concat arrs, targets ++ concat (map snd dl)) /\
    w' = log_events (map (batch_event args model fp16_scaler) dl) w.
Proof.
  intros Hr.
  assert (exists arrs,
             Forall2 (fun (b : Batch) a =>
                        batch_array args model fp16_scaler (fst b) = Ok a)
                     dl arrs) as [arrs Ha].
  { revert embs targets w Hr.
    induction dl as [|[data target] dl IH]; intros embs targets w Hr.
    - exists []. constructor.
    - rewrite loop_step in Hr.
      destruct (batch_array args model fp16_scaler data) as [a|e] eqn:Ea;
        [|discriminate Hr].
      destruct (IH _ _ _ Hr) as [arrs Harrs].
      exists (a :: arrs). constructor; [exact Ea | exact Harrs]. }
  exists arrs. split; [exact Ha|].
  rewrite (loop_ok _ _ _ _ _ _ _ _ Ha) in Hr. now injection Hr as <- <-.
Qed.

Lemma get_embeddings_ok_inv args model fp16_scaler dl w r w' :
  get_embeddings args model dl fp16_scaler w = (Ok r, w') ->
  exists arrs,
    Forall2 (fun (b : Batch) a =>
               batch_array args model fp16_scaler (fst b) = Ok a) dl arrs /\
    r = (concat arrs, concat (map snd dl)) /\
    w' = log_events (EvEval :: map (batch_event args model fp16_scaler) dl) w.
Proof.
  unfold get_embeddings. rewrite bind_emit. intros Hr.
  destruct (loop_ok_inv _ _ _ _ _ _ _ _ _ Hr) as (arrs & Ha & -> & ->).
  exists arrs. split; [exact Ha|]. split; [reflexivity|].
  now rewrite log_events_app.
Qed.

(** X5.  The extraction stops at the first batch that fails: when the
    batches before it go through and the encoder call, the selection of
    the last list element or the conversion fails on it, the extractor
    raises that exception, has called the encoder on no later batch, and
    returns none of the rows collected so far. *)
Theorem get_embeddings_fail_fast args model fp16_scaler
    pre data target post arrs e w :
  Forall2 (fun (b : Batch) a =>
             batch_array args model fp16_scaler (fst b) = Ok a) pre arrs ->
  batch_array args model fp16_scaler data = Raise e ->
  get_embeddings args model (pre ++ (data, target) :: post) fp16_scaler w =
  (Raise e,
   log_events (EvEval :: map (batch_event args model fp16_scaler) pre ++
               [batch_event args model fp16_scaler (data, target)]) w).
Proof.
  intros Hpre He. unfold get_embeddings. rewrite bind_emit, loop_app.
  rewrite (loop_ok _ _ _ _ _ _ _ _ Hpre), loop_step, He.
  now rewrite !log_events_app.
Qed.

Lemma get_embeddings_stops args model fp16_scaler
    (pre post : list (list Input * list Label)) data target arrs e w :
  Forall2 (fun (b : Batch) a =>
             batch_array args model fp16_scaler (fst b) = Ok a) pre arrs ->
  batch_array args model fp16_scaler data = Raise e ->
  get_embeddings args model (pre ++ (data, target) :: post) fp16_scaler w =
  (Raise e,
   log_events (EvEval :: map (batch_event args model fp16_scaler) pre ++
               [batch_event args model fp16_scaler (data, target)]) w).
Proof.
  intros Hpre He. unfold get_embeddings. rewrite bind_emit, loop_app.
  rewrite (loop_ok _ _ _ _ _ _ _ _ Hpre), loop_step, He.
  now rewrite !log_events_app.
Qed.

(** A loader either goes through as a whole or has a first batch that
    fails. *)
Lemma batches_split args model fp16_scaler
    (dl : list (list Input * list Label)) :
  (exists arrs,
      Forall2 (fun (b : Batch) a =>
                 batch_array args model fp16_scaler (fst b) = Ok a) dl arrs) \/
  (exists pre b post arrs e,
      dl = pre ++ b :: post /\
      Forall2 (fun (b : Batch) a =>
                 batch_array args model fp16_scaler (fst b) = Ok a) pre arrs /\
      batch_array args model fp16_scaler (fst b) = Raise e).
Proof.
  induction dl as [|b dl IH].
  - left. exists []. constructor.
  - destruct (batch_array args model fp16_scaler (fst b)) as [a|e] eqn:Eb.
    + destruct IH as [[arrs H]|(pre & b' & post & arrs & e & -> & Hpre & He)].
      * left. exists (a :: arrs). now constructor.
      * right. exists (b :: pre), b', post, (a :: arrs), e.
        split; [reflexivity|]. split; [now constructor | exact He].
    + right. exists [], b, dl, [], e.
      split; [reflexivity|]. split; [constructor | exact Eb].
Qed.

(** X6.  What makes a batch fail, and with it the extraction: the
    encoder call raises (its exception comes through); the encoder
    returns an empty list ([emb[-1]] raises [IndexError]); what is left
    after the selection of the last list element is a list or a tuple
    (it has no [detach]: [AttributeError]); or it is a bfloat16 tensor
    ([numpy()] raises [TypeError]).  The extraction then stops on that
    batch with that exception. *)
Theorem get_embeddings_batch_errors args model fp16_scaler
    (pre post : list (list Input * list Label)) data target arrs e w :
  Forall2 (fun (b : Batch) a =>
             batch_array args model fp16_scaler (fst b) = Ok a) pre arrs ->
  snd (encode_call args model fp16_scaler data) = Raise e \/
  (snd (encode_call args model fp16_scaler data) = Ok (OList []) /\
   e = IndexError) \/
  (exists init inner,
      (snd (encode_call args model fp16_scaler data) =
         Ok (OList (init ++ [OList inner])) \/
       snd (encode_call args model fp16_scaler data) =
         Ok (OList (init ++ [OTuple inner])) \/
       snd (encode_call args model fp16_scaler data) = Ok (OTuple inner)) /\
      e = AttributeError) \/
  (exists init rows,
      (snd (encode_call args model fp16_scaler data) =
         Ok (OList (init ++ [OTensor BFloat16 rows])) \/
       snd (encode_call args model fp16_scaler data) =
         Ok (OTensor BFloat16 rows)) /\
      e = TypeError) ->
  get_embeddings args model (pre ++ (data, target) :: post) fp16_scaler w =
  (Raise e,
   log_events (EvEval :: map (batch_event args model fp16_scaler) pre ++
               [batch_event args model fp16_scaler (data, target)]) w).
Proof.
  intros Hpre Hcase. apply get_embeddings_stops with (arrs := arrs);
    [exact Hpre|].
  unfold batch_array.
  destruct Hcase as [H|[[H ->]|[(init & inner & H & ->)|(init & rows & H & ->)]]].
  - now rewrite H.
  - now rewrite H.
  - destruct H as [H|[H|H]]; rewrite H; cbn [select_final];
      rewrite ?last_snoc; reflexivity.
  - destruct H as [H|H]; rewrite H; cbn [select_final];
      rewrite ?last_snoc; reflexivity.
Qed.

(** X7.  The extractor calls [model.eval()] once and then the encoder
    once per batch, in the order of the loader.  Either every batch goes
    through, the encoder was called on all of them and the arrays of the
    batches are returned one after the other; or the encoder was called
    on the batches up to the first one that fails, and on none after it,
    and the exception of that batch is raised. *)
Theorem get_embeddings_calls args model fp16_scaler
    (dl : list (list Input * list Label)) w :
  (exists arrs,
      Forall2 (fun (b : Batch) a =>
                 batch_array args model fp16_scaler (fst b) = Ok a) dl arrs /\
      get_embeddings args model dl fp16_scaler w =
      (Ok (concat arrs, concat (map snd dl)),
       log_events (EvEval :: map (batch_event args model fp16_scaler) dl) w)) \/
  (exists pre b post arrs e,
      dl = pre ++ b :: post /\
      Forall2 (fun (b : Batch) a =>
                 batch_array args model fp16_scaler (fst b) = Ok a) pre arrs /\
      batch_array args model fp16_scaler (fst b) = Raise e /\
      get_embeddings args model dl fp16_scaler w =
      (Raise e,
       log_events (EvEval :: map (batch_event args model fp16_scaler) pre ++
                   [batch_event args model fp16_scaler b]) w)).
Proof.
  destruct (batches_split args model fp16_scaler dl)
    as [[arrs H]|(pre & [data target] & post & arrs & e & -> & Hpre & He)].
  - left. exists arrs. split; [exact H|]. now apply get_embeddings_ok.
  - right. exists pre, (data, target), post, arrs, e.
    split; [reflexivity|]. split; [exact Hpre|]. split; [exact He|].
    now apply get_embeddings_stops with (arrs := arrs).
Qed.

End ExtractorRuns.

Section ExtractorLaws.

Context `{Ext : External}.

(** X8.  The embeddings of two loaders put one after the other are the
    embeddings of the first followed by those of the second, and
    likewise for the labels. *)
Theorem get_embeddings_concat args model fp16_scaler
    (dl1 dl2 : list (list Input * list Label))
    X1 y1 X2 y2 w1 w1' w2 w2' w :
  get_embeddings args model dl1 fp16_scaler w1 = (Ok (X1, y1), w1') ->
  get_embeddings args model dl2 fp16_scaler w2 = (Ok (X2, y2), w2') ->
  fst (get_embeddings args model (dl1 ++ dl2) fp16_scaler w) =
  Ok (X1 ++ X2, y1 ++ y2).
Proof.
  intros H1 H2.
  destruct (get_embeddings_ok_inv _ _ _ _ _ _ _ H1) as (a1 & F1 & E1 & _).
  destruct (get_embeddings_ok_inv _ _ _ _ _ _ _ H2) as (a2 & F2 & E2 & _).
  injection E1 as -> ->. injection E2 as -> ->.
  rewrite (get_embeddings_ok args model fp16_scaler (dl1 ++ dl2) (a1 ++ a2) w)
    by now apply Forall2_app.
  cbn [fst]. now rewrite concat_app, map_app, concat_app.
Qed.

(** X9.  With an encoder that works example by example, the two arrays
    depend only on the examples and labels in iteration order, not on
    where the batches are cut: two loaders that yield the same examples
    and labels in the same order give the same arrays. *)
Theorem get_embeddings_batching args model fp16_scaler
    (g : Input -> dtype * Row)
    (dl1 dl2 : list (list Input * list Label)) w1 w2 :
  (forall data, batch_array args model fp16_scaler data = Ok (map g data)) ->
  concat (map fst dl1) = concat (map fst dl2) ->
  concat (map snd dl1) = concat (map snd dl2) ->
  fst (get_embeddings args model dl1 fp16_scaler w1) =
    Ok (map g (concat (map fst dl1)), concat (map snd dl1)) /\
  fst (get_embeddings args model dl1 fp16_scaler w1) =
  fst (get_embeddings args model dl2 fp16_scaler w2).
Proof.
  intros Hg Hx Hy.
  assert (Hrun : forall (dl : list (list Input * list Label)) w,
             fst (get_embeddings args model dl fp16_scaler w) =
             Ok (map g (concat (map fst dl)), concat (map snd dl))).
  { intros dl w.
    rewrite (get_embeddings_ok args model fp16_scaler dl
               (map (map g) (map fst dl)) w).
    - cbn [fst]. now rewrite concat_map_rows.
    - induction dl as [|b dl IH]; constructor; [apply Hg | exact IH]. }
  split; [apply Hrun|]. now rewrite !Hrun, Hx, Hy.
Qed.

End ExtractorLaws.

(** ** The evaluation, the data and the model when a stage fails *)

Section Failures.

Context `{Ext : External}.

(** X10.  [eval_linear] embeds the splits in the order train, val, test
    and stops at the first one whose extraction fails, with the
    exception of that extraction and in the state that extraction left:
    the splits after it are not embedded, and neither the classifier nor
    the low-shot routine is called. *)
Theorem eval_linear_fail_fast args model tr va te use_fp16 w :
  (forall e w1,
      get_embeddings args model tr (scaler_of use_fp16)
        (scaler_world use_fp16 w) = (Raise e, w1) ->
      eval_linear args model tr va te use_fp16 w = (Raise e, w1)) /\
  (forall X y w1 e w2,
      get_embeddings args model tr (scaler_of use_fp16)
        (scaler_world use_fp16 w) = (Ok (X, y), w1) ->
      get_embeddings args model va (scaler_of use_fp16) w1 = (Raise e, w2) ->
      eval_linear args model tr va te use_fp16 w = (Raise e, w2)) /\
  (forall X y w1 Xv yv w2 e w3,
      get_embeddings args model tr (scaler_of use_fp16)
        (scaler_world use_fp16 w) = (Ok (X, y), w1) ->
      get_embeddings args model va (scaler_of use_fp16) w1 = (Ok (Xv, yv), w2) ->
      get_embeddings args model te (scaler_of use_fp16) w2 = (Raise e, w3) ->
      eval_linear args model tr va te use_fp16 w = (Raise e, w3)).
Proof.
  split; [|split].
  - intros e w1 H1. rewrite eval_linear_eq. unfold eval_linear_from.
    now rewrite (bind_raise _ _ _ _ _ H1).
  - intros X y w1 e w2 H1 H2. rewrite eval_linear_eq. unfold eval_linear_from.
    now rewrite (bind_ok _ _ _ _ _ H1), (bind_raise _ _ _ _ _ H2).
  - intros X y w1 Xv yv w2 e w3 H1 H2 H3.
    rewrite eval_linear_eq. unfold eval_linear_from.
    now rewrite (bind_ok _ _ _ _ _ H1), (bind_ok _ _ _ _ _ H2),
      (bind_raise _ _ _ _ _ H3).
Qed.

(** X11.  [get_data] fails only for the dataset 'fsd50k', when one of the
    three loaders cannot be built; the loaders are built in the order
    train, val, test and none is built after the one that fails.  The
    run then stops with that exception before the model is built. *)
Theorem get_data_fail_fast args w e w' :
  get_data args w = (Raise e, w') ->
  dataset args = "fsd50k" /\
  ((fsd50k_loader args "train" = Raise e /\
    w' = log_events [EvDataLoader "train"] w) \/
   (exists tr,
       fsd50k_loader args "train" = Ok tr /\
       fsd50k_loader args "val" = Raise e /\
       w' = log_events [EvDataLoader "train"; EvDataLoader "val"] w) \/
   (exists tr va,
       fsd50k_loader args "train" = Ok tr /\
       fsd50k_loader args "val" = Ok va /\
       fsd50k_loader args "test" = Raise e /\
       w' = log_events loader_events w)) /\
  (forall w0 w1,
      get_data args (opened args w0) = (Raise e, w1) ->
      main args w0 = (Raise e, w1)).
Proof.
  intros H. unfold get_data, get_fsd50k in H.
  destruct (String.eqb (dataset args) "fsd50k") eqn:Hd; [|discriminate H].
  apply String.eqb_eq in Hd. split; [exact Hd|]. split.
  - rewrite bind_assoc, bind_call in H.
    destruct (fsd50k_loader args "train") as [tr|e1].
    2:{ injection H as <- <-. now left. }
    rewrite bind_assoc, bind_call in H.
    destruct (fsd50k_loader args "val") as [va|e2].
    2:{ injection H as <- <-. right. left. exists tr.
        now rewrite log_events_app. }
    rewrite bind_assoc, bind_call in H.
    destruct (fsd50k_loader args "test") as [te|e3].
    { rewrite !bind_ret in H. discriminate H. }
    injection H as <- <-. right. right. exists tr, va.
    now rewrite !log_events_app.
  - intros w0 w1 H0. rewrite main_split, bind_run. unfold main_line.
    now rewrite (bind_raise _ _ _ _ _ H0).
Qed.

(** X12.  With a model file path, [load_model] fails before any weight
    is loaded when the checkpoint cannot be read (the exception of
    [torch.load] comes through), when the object read is not a dict, or
    when it has a 'model' entry that is not a dict (both
    [AttributeError]): [load_state_dict] is not called. *)
Theorem load_model_fails_before_load args w :
  model_file_path args <> "" ->
  (forall e,
      torch_load (model_file_path args) = Raise e ->
      load_model args w =
      (Raise e,
       log_events [EvModelWrapper; EvTorchLoad (model_file_path args)] w)) /\
  (forall raw,
      torch_load (model_file_path args) = Ok raw ->
      (exists t, raw = PTensor t) \/
      (exists d t, raw = PDict d /\ PyDict.get "model" d = Some (PTensor t)) ->
      load_model args w =
      (Raise AttributeError,
       log_events [EvModelWrapper; EvTorchLoad (model_file_path args)] w)).
Proof.
  intros Hp. split.
  - intros e He. now apply load_model_read_fails.
  - intros raw Hl Hraw. apply load_model_unwrap_fails with (raw := raw);
      [exact Hp | exact Hl |].
    destruct Hraw as [[t ->]|(d & t & -> & Hg)]; [reflexivity|].
    unfold unwrap_model, PyDict.mem. cbn [as_dict]. now rewrite Hg.
Qed.

End Failures.

(** ** What a run does to the files, and what it calls *)

Section Runs.

Context `{Ext : External}.

(** X13.  The script writes to its log at one place only, the end: a run
    that stops on an exception has made no [logger.info] call, whatever
    the stage it stops in; a run that reaches its end has made exactly
    one, after every other call, with the line built from the results of
    the evaluation. *)
Theorem main_logs_at_end args w :
  (forall e w',
      main args w = (Raise e, w') ->
      exists calls, trace w' = trace w ++ calls /\ Forall quiet calls) /\
  (forall w',
      main args w = (Ok tt, w') ->
      exists calls line,
        trace w' = trace w ++ calls ++ [EvLogInfo (log_path args) line] /\
        Forall quiet calls /\
        fst (main_line args (opened args w)) = Ok line).
Proof.
  split.
  - intros e w'. apply main_abort_trace.
  - intros w' Hm.
    destruct (main_ok_trace _ _ _ Hm) as (calls & line & w1 & Hl & Ht & Fq).
    exists calls, line. split; [exact Ht|]. split; [exact Fq|]. now rewrite Hl.
Qed.

(** X15.  The low-shot result is read at positions 0 and 1 only after
    the whole evaluation: if it has fewer than two components the run
    stops with [IndexError] and logs nothing; components beyond the
    second are ignored. *)
Theorem main_low_shot_bounds args w tr va te model w2 res w3 :
  get_data args (opened args w) =
    (Ok (Some (tr, va, te)), log_events loader_events (opened args w)) ->
  load_model args (log_events loader_events (opened args w)) = (Ok model, w2) ->
  eval_linear args model tr va te (use_fp16_eval args)
    (log_events [EvCuda; EvEval] w2) = (Ok res, w3) ->
  (length (score_5 res) < 2 -> main args w = (Raise IndexError, w3)) /\
  (forall mean std rest,
      score_5 res = mean :: std :: rest ->
      main args w =
      logger_info (log_path args)
        (log_line (model_epoch args) (score_all res) mean std) w3).
Proof.
  intros Hd Hm He. split.
  - intros Hlen. rewrite main_split, bind_run. unfold main_line.
    rewrite (bind_ok _ _ _ _ _ Hd), bind_ret, (bind_ok _ _ _ _ _ Hm).
    rewrite !bind_emit, log_events_app, (bind_ok _ _ _ _ _ He). cbv zeta.
    unfold index.
    destruct (score_5 res) as [|m [|s rest]]; cbn [length] in Hlen;
      [reflexivity | reflexivity | lia].
  - intros mean std rest Hs.
    apply main_completes with (tr := tr) (va := va) (te := te)
                              (model := model) (w2 := w2);
      try assumption; now rewrite Hs.
Qed.

End Runs.

(** ** The further properties on the small installations *)

Lemma clean_by_no_collision_witness :
  clean_by "backbone.encoder."
    [("backbone.encoder.fc.bias", 1); ("head.weight", 2);
     ("backbone.encoder.conv.weight", 3)] =
  [("fc.bias", 1); ("conv.weight", 3)].
Proof.
  apply (clean_by_no_collision "backbone.encoder."
           [("backbone.encoder.fc.bias", 1); ("head.weight", 2);
            ("backbone.encoder.conv.weight", 3)]).
  refine (bool_decide_unpack _ _). vm_compute. exact I.
Defined.

Lemma clean_state_dict_restores_witness :
  clean_state_dict
    [("backbone.encoder.conv.weight", 1); ("backbone.projector.weight", 2);
     ("backbone.encoder.fc.bias", 3)] =
  [("conv.weight", 1); ("fc.bias", 3)].
Proof.
  apply (proj1 (clean_state_dict_restores
                  [("backbone.encoder.conv.weight", 1);
                   ("backbone.projector.weight", 2);
                   ("backbone.encoder.fc.bias", 3)]
                  [("conv.weight", 1); ("fc.bias", 3)]
                  ltac:(discriminate)
                  ltac:(refine (bool_decide_unpack _ _); vm_compute; exact I))).
  - intros k Hk. apply list_elem_of_In in Hk.
    destruct Hk as [<-|[<-|[]]]; reflexivity.
  - reflexivity.
Defined.

Lemma get_embeddings_fail_fast_witness :
  get_embeddings (Ext := Faulty.bad_encoder) Toy.args Toy.model
    (Faulty.loader "train") None Toy.world =
  (Raise RuntimeError,
   log_events [EvEval; EvForward false; EvForward false] Toy.world).
Proof.
  apply (get_embeddings_fail_fast (Ext := Faulty.bad_encoder) Toy.args
           Toy.model None [([1; 2], [10; 20])] [0] [30] [([7], [70])]
           [[(Float32, 2); (Float32, 4)]] RuntimeError Toy.world).
  - repeat constructor.
  - reflexivity.
Defined.

Lemma get_embeddings_concat_witness :
  fst (get_embeddings (Ext := Toy.ext) Toy.args Toy.model
         ([([1; 2], [10; 20])] ++ [([3], [30])]) None Toy.world) =
  Ok ([(Float32, 2); (Float32, 4)] ++ [(Float32, 6)], [10; 20] ++ [30]).
Proof.
  apply (get_embeddings_concat (Ext := Toy.ext) Toy.args Toy.model None
           [([1; 2], [10; 20])] [([3], [30])]
           [(Float32, 2); (Float32, 4)] [10; 20] [(Float32, 6)] [30]
           Toy.world (log_events [EvEval; EvForward false] Toy.world)
           Toy.world (log_events [EvEval; EvForward false] Toy.world)
           Toy.world); reflexivity.
Defined.

Lemma get_embeddings_batching_witness :
  fst (get_embeddings (Ext := Toy.ext) Toy.args Toy.model
         [([1; 2], [10; 20]); ([3], [30])] None Toy.world) =
  fst (get_embeddings (Ext := Toy.ext) Toy.args Toy.model
         [([1], [10]); ([2; 3], [20; 30])] None Toy.world).
Proof.
  apply (get_embeddings_batching (Ext := Toy.ext) Toy.args Toy.model None
           (fun x => (Float32, 2 * x))
           [([1; 2], [10; 20]); ([3], [30])]
           [([1], [10]); ([2; 3], [20; 30])] Toy.world Toy.world).
  - intros data.
    change (Ok (map (pair Float32) (map (Nat.mul 2) data)) =
            Ok (map (fun x => (Float32, 2 * x)) data)).
    now rewrite map_map.
  - reflexivity.
  - reflexivity.
Defined.

Lemma get_embeddings_batch_errors_witness :
  get_embeddings (Ext := Faulty.brain_float) Toy.args Toy.model
    (Toy.loader "train") None Toy.world =
  (Raise TypeError, log_events [EvEval; EvForward false] Toy.world).
Proof.
  apply (get_embeddings_batch_errors (Ext := Faulty.brain_float) Toy.args
           Toy.model None [] [([3], [30])] [1; 2] [10; 20] [] TypeError
           Toy.world).
  - constructor.
  - right; right; right. exists [], [2; 4].
    split; [right; reflexivity | reflexivity].
Defined.

Lemma eval_linear_fail_fast_witness :
  eval_linear (Ext := Faulty.bad_encoder) Toy.args Toy.model
    (Faulty.loader "train") (Faulty.loader "val") (Faulty.loader "test")
    true Toy.world =
  (Raise RuntimeError,
   log_events [EvGradScaler; EvEval; EvForward true; EvForward true] Toy.world).
Proof.
  apply (proj1 (eval_linear_fail_fast (Ext := Faulty.bad_encoder) Toy.args
                  Toy.model (Faulty.loader "train") (Faulty.loader "val")
                  (Faulty.loader "test") true Toy.world)).
  reflexivity.
Defined.

Lemma main_logs_at_end_witness :
  exists w' calls,
    main (Ext := Toy.ext) (Toy.with_path "missing.pth" Toy.args) Toy.world =
      (Raise OSError, w') /\
    trace w' = trace Toy.world ++ calls /\ Forall quiet calls.
Proof.
  destruct (main (Ext := Toy.ext) (Toy.with_path "missing.pth" Toy.args)
              Toy.world) as [r w'] eqn:Hrun.
  assert (Hr : r = Raise OSError).
  { change r with (fst (r, w')). rewrite <- Hrun. vm_compute. reflexivity. }
  subst r.
  destruct (proj1 (main_logs_at_end (Ext := Toy.ext)
                     (Toy.with_path "missing.pth" Toy.args) Toy.world)
              OSError w' Hrun) as (calls & E & F).
  exists w', calls. split; [reflexivity|]. split; [exact E | exact F].
Defined.

Lemma get_data_fail_fast_witness :
  main (Ext := Faulty.no_val) Toy.args Toy.world =
  (Raise OSError,
   log_events [EvDataLoader "train"; EvDataLoader "val"]
     (opened Toy.args Toy.world)).
Proof.
  apply (proj2 (proj2 (get_data_fail_fast (Ext := Faulty.no_val) Toy.args
                         Toy.world OSError
                         (log_events [EvDataLoader "train"; EvDataLoader "val"]
                            Toy.world)
                         eq_refl))).
  reflexivity.
Defined.

Lemma load_model_fails_before_load_witness :
  load_model (Ext := Toy.ext) (Toy.with_path "missing.pth" Toy.args) Toy.world =
    (Raise OSError,
     log_events [EvModelWrapper; EvTorchLoad "missing.pth"] Toy.world) /\
  load_model (Ext := Faulty.odd_checkpoint) Toy.args Toy.world =
    (Raise AttributeError,
     log_events [EvModelWrapper; EvTorchLoad "ckpt.pth"] Toy.world).
Proof.
  split.
  - apply (proj1 (load_model_fails_before_load (Ext := Toy.ext)
                    (Toy.with_path "missing.pth" Toy.args) Toy.world
                    ltac:(discriminate))).
    reflexivity.
  - apply (proj2 (load_model_fails_before_load (Ext := Faulty.odd_checkpoint)
                    Toy.args Toy.world ltac:(discriminate))
             (PDict [("backbone.encoder.conv.weight", PTensor 1);
                     ("model", PTensor 2)])).
    + reflexivity.
    + right. now exists [("backbone.encoder.conv.weight", PTensor 1);
                         ("model", PTensor 2)], 2.
Defined.

Lemma main_low_shot_bounds_witness :
  fst (main (Ext := Faulty.short_low_shot) Toy.args Toy.world) =
  Raise IndexError.
Proof.
  destruct (load_model (Ext := Faulty.short_low_shot) Toy.args
              (log_events loader_events (opened Toy.args Toy.world)))
    as [rm w2] eqn:Hm.
  assert (Hrm : rm = Ok Toy.model).
  { change rm with (fst (rm, w2)). rewrite <- Hm. vm_compute. reflexivity. }
  subst rm.
  destruct (eval_linear (Ext := Faulty.short_low_shot) Toy.args Toy.model
              (Toy.loader "train") (Toy.loader "val") (Toy.loader "test")
              (use_fp16_eval Toy.args) (log_events [EvCuda; EvEval] w2))
    as [re w3] eqn:He.
  assert (Hre : exists res, re = Ok res /\ length (score_5 res) < 2).
  { change re with (fst (re, w3)). rewrite <- He. vm_compute.
    eexists. split; [reflexivity|]. cbn. lia. }
  destruct Hre as (res & -> & Hlen).
  rewrite (proj1 (main_low_shot_bounds (Ext := Faulty.short_low_shot)
                    Toy.args Toy.world (Toy.loader "train") (Toy.loader "val")
                    (Toy.loader "test") Toy.model w2 res w3 eq_refl Hm He)
             Hlen).
  reflexivity.
Defined.
